(** * go-ipfs-blocklist: the blocklist contract and its two backends

    A shallow embedding of [blocklist.go], [datastoreblocklist.go] and the
    relational backend ([PgBlocklist]), with the properties of the
    specification stated and settled over it.

    Layout:
    - [Go]: the fragments of the Go runtime the code relies on (results,
      errors, panics, slices, [strings.Join] and [strings.Split]);
    - the shared types of [blocklist.go];
    - [Collab]: the pure functions of the libraries the code calls
      (go-cid, go-multihash, go-ipfs-ds-help, encoding/json, time), and
      [Ref], a reference instance of them;
    - [KV] and [SQL]: reference semantics of the two stores;
    - [DatastoreBlocklist] and [PgBlocklist]: the two backends;
    - the theorems, property by property (C1 to C10). *)

From Stdlib Require Import ZArith List String Ascii Bool Lia PeanoNat.
From Stdlib Require Import DecimalString DecimalPos DecimalN Sorted.
Import ListNotations.
Local Open Scope string_scope.
Local Open Scope Z_scope.

Set Implicit Arguments.

(* ------------------------------------------------------------------ *)
(** ** Go runtime fragments *)

(** An [error] value.  [ErrNotFound] is the package variable of
    [blocklist.go]; [ErrUnexpectedActionType] is the value built by
    [fmt.Errorf("unexpected action type: '%v'", typ)]; every error value that
    comes out of a library (the stores, the codecs) is an [ErrExternal],
    carrying its message. *)
Inductive error : Type :=
| ErrNotFound
| ErrUnexpectedActionType (typ : string)
| ErrExternal (msg : string).

(** What a call yields: a value with a nil error, a non-nil error, or a
    run-time panic (an index out of range, a capacity [make] refuses). *)
Inductive result (A : Type) : Type :=
| Ok (a : A)
| Err (e : error)
| Panic.
Arguments Err {A} e.
Arguments Panic {A}.

Definition bind {A B : Type} (r : result A) (k : A -> result B) : result B :=
  match r with
  | Ok a => k a
  | Err e => Err e
  | Panic => Panic
  end.

Notation "x <- r ;; k" := (bind r (fun x => k))
  (at level 61, r at next level, right associativity).

Definition is_ok {A : Type} (r : result A) : bool :=
  match r with Ok _ => true | _ => false end.

Definition error_eqb (a b : error) : bool :=
  match a, b with
  | ErrNotFound, ErrNotFound => true
  | ErrUnexpectedActionType s, ErrUnexpectedActionType t => String.eqb s t
  | ErrExternal s, ErrExternal t => String.eqb s t
  | _, _ => false
  end.

Module Go.

(** [s[i] = v] on a slice of length [length s]: a panic when [i] is not
    below the length, whatever the capacity. *)
Fixpoint set_index {A : Type} (s : list A) (i : nat) (v : A)
  : result (list A) :=
  match s, i with
  | [], _ => Panic
  | _ :: t, O => Ok (v :: t)
  | x :: t, S j => t' <- set_index t j v ;; Ok (x :: t')
  end.

(** [make([]T, len, cap)]: a slice of [len] zero values; the capacity is
    room to grow by [append], not a range of valid indices. *)
Definition make {A : Type} (zero : A) (len cap : nat) : list A :=
  repeat zero len.

(** The capacity test of [make] (runtime.makeslice): a capacity is refused,
    with a panic, when it is negative or when that many elements of [size]
    bytes take more than [maxAlloc] bytes, the most the runtime allocates
    (48 bits of address space on linux/amd64, where an [int] has 64 bits and
    a pointer 8 bytes).  An allocation that passes the test is taken to be
    served: the memory of the machine is not part of the model. *)
Definition maxAlloc : Z := 2 ^ 48.
Definition ptrSize : Z := 8.

Definition cap_ok (size cap : Z) : bool :=
  (0 <=? cap) && (cap * size <=? maxAlloc).

(** [strings.Join(elems, sep)]. *)
Fixpoint Join (elems : list string) (sep : string) : string :=
  match elems with
  | [] => EmptyString
  | [e] => e
  | e :: rest => e ++ sep ++ Join rest sep
  end.

(** [strings.Split(s, sep)] for a separator of one byte: the pieces of [s]
    between the separators, always at least one piece. *)
Fixpoint split_acc (sep : ascii) (acc : string) (s : string) : list string :=
  match s with
  | EmptyString => [acc]
  | String c rest =>
      if Ascii.eqb c sep
      then acc :: split_acc sep EmptyString rest
      else split_acc sep (acc ++ String c EmptyString) rest
  end.

Definition Split (s : string) (sep : ascii) : list string :=
  split_acc sep EmptyString s.

End Go.

(* ------------------------------------------------------------------ *)
(** ** Content identifiers (go-cid) *)

(** A multihash, as its bytes. *)
Definition Multihash := string.

(** A [cid.Cid]: the zero value, a version-0 CID (a bare multihash, read
    under the DagProtobuf codec) or a version-1 CID (codec and multihash). *)
Inductive Cid : Type :=
| CidUndef
| CidV0 (h : Multihash)
| CidV1 (codec : N) (h : Multihash).

Definition DagProtobuf : N := 112.

(** [Cid.Version]: 0 for the legacy form and 1 otherwise. *)
Definition Version (c : Cid) : Z :=
  match c with CidV0 _ => 0 | _ => 1 end.

Definition Defined (c : Cid) : bool :=
  match c with CidUndef => false | _ => true end.

Definition NewCidV1 (codec : N) (h : Multihash) : Cid := CidV1 codec h.

Definition Cid_eqb (a b : Cid) : bool :=
  match a, b with
  | CidUndef, CidUndef => true
  | CidV0 h, CidV0 k => String.eqb h k
  | CidV1 c h, CidV1 d k => N.eqb c d && String.eqb h k
  | _, _ => false
  end.

(* ------------------------------------------------------------------ *)
(** ** Shared types ([blocklist.go]) *)

(** [time.Time]: an instant (nanoseconds since the Unix epoch) and the
    offset, in seconds east of UTC, of the zone it is presented in. *)
Record Time : Type := mkTime { unixNano : Z; zoneOffset : Z }.

Definition zeroTime : Time := mkTime 0 0.

Record BlocklistItem : Type := mkBlocklistItem {
  Hash : string;
  Content : list string;
  Reason : string;
  User : string
}.

Record BlockData : Type := mkBlockData {
  Blocked : list string;
  dContent : list string;
  dReason : string;
  dUser : string
}.

Record Action : Type := mkAction {
  Typ : string;
  Ids : list Cid;
  aReason : string;
  aUser : string;
  CreatedAt : Time
}.

Definition zeroItem : BlocklistItem :=
  mkBlocklistItem EmptyString [] EmptyString EmptyString.
Definition zeroAction : Action :=
  mkAction EmptyString [] EmptyString EmptyString zeroTime.

(** The guard of both [AddLog]s:
    [act.Typ != "block" && act.Typ != "unblock"]. *)
Definition bad_typ (typ : string) : bool :=
  negb (String.eqb typ "block") && negb (String.eqb typ "unblock").

(* ------------------------------------------------------------------ *)
(** ** The pure library functions the backends call

    None of these is code of the repository; the backends are written against
    them, so they are taken as they come.  What a theorem needs of them is
    stated as a hypothesis of that theorem. *)
Record Collab : Type := mkCollab {
  (** go-cid: [Cid.String] and [cid.Parse]. *)
  cid_String : Cid -> string;
  cid_Parse : string -> result Cid;
  (** go-multihash: [mh.FromB58String]. *)
  FromB58String : string -> result Multihash;
  (** go-ipfs-ds-help: [dshelp.CidToDsKey]. *)
  CidToDsKey : Cid -> string;
  (** go-datastore: [ds.NewKey]. *)
  NewKey : string -> string;
  (** encoding/json on the two record types; the decoders take the
      receiver they fill in. *)
  json_Marshal_item : BlocklistItem -> result string;
  json_Unmarshal_item : string -> BlocklistItem -> result BlocklistItem;
  json_Marshal_action : Action -> result string;
  json_Unmarshal_action : string -> Action -> result Action;
  (** time: [Time.Format(time.RFC3339)]. *)
  Format_RFC3339 : Time -> string
}.

(** The canonical encodings of [blocklist.go]: all four methods hand over
    to encoding/json.  [UnmarshalBinary] gives the receiver as the call
    leaves it. *)
Definition BlocklistItem_MarshalBinary (C : Collab) (b : BlocklistItem)
  : result string :=
  json_Marshal_item C b.

Definition BlocklistItem_UnmarshalBinary (C : Collab) (b : BlocklistItem)
           (data : string) : result BlocklistItem :=
  json_Unmarshal_item C data b.

Definition Action_MarshalBinary (C : Collab) (l : Action) : result string :=
  json_Marshal_action C l.

Definition Action_UnmarshalBinary (C : Collab) (l : Action) (data : string)
  : result Action :=
  json_Unmarshal_action C data l.

(* ------------------------------------------------------------------ *)
(** ** Reference semantics of the key-value store (go-datastore)

    One flat store of key/value pairs, at most one pair per key.  A store may
    be out of order ([fault]): every call then fails with that message and
    changes nothing.  [Delete] of an absent key succeeds; a [Query] limit of 0
    means no limit; [Get] of an absent key fails with the library's own
    not-found error. *)
Module KV.

Record Store : Type := mkStore {
  entries : list (string * string);
  fault : option string
}.

Definition empty : Store := mkStore [] None.

Definition guard {A : Type} (s : Store) (r : result A) : result A :=
  match fault s with
  | Some msg => Err (ErrExternal msg)
  | None => r
  end.

Fixpoint lookup (k : string) (l : list (string * string)) : option string :=
  match l with
  | [] => None
  | (k', v) :: t => if String.eqb k k' then Some v else lookup k t
  end.

Fixpoint remove (k : string) (l : list (string * string))
  : list (string * string) :=
  match l with
  | [] => []
  | (k', v) :: t =>
      if String.eqb k k' then remove k t else (k', v) :: remove k t
  end.

Definition Has (s : Store) (k : string) : result bool :=
  guard s (Ok (match lookup k (entries s) with Some _ => true | None => false end)).

Definition Get (s : Store) (k : string) : result string :=
  guard s (match lookup k (entries s) with
           | Some v => Ok v
           | None => Err (ErrExternal "datastore: key not found")
           end).

Definition Put (s : Store) (k v : string) : result Store :=
  guard s (Ok (mkStore ((k, v) :: remove k (entries s)) (fault s))).

Definition Delete (s : Store) (k : string) : result Store :=
  guard s (Ok (mkStore (remove k (entries s)) (fault s))).

(** Descending key order, bytewise. *)
Definition key_geb (a b : string * string) : bool :=
  String.leb (fst b) (fst a).

Fixpoint insert_desc (x : string * string) (l : list (string * string))
  : list (string * string) :=
  match l with
  | [] => [x]
  | y :: t => if key_geb x y then x :: y :: t else y :: insert_desc x t
  end.

Definition sort_desc (l : list (string * string)) : list (string * string) :=
  fold_right insert_desc [] l.

(** The namespace wrapper: a key [k] of the wrapped store is the key
    [prefix ++ k] of the store below, and a query sees the keys below
    [prefix], with the prefix taken off. *)
Fixpoint strip (prefix k : string) : option string :=
  match prefix, k with
  | EmptyString, String "/" _ => Some k
  | EmptyString, _ => None
  | String a p, String b r => if Ascii.eqb a b then strip p r else None
  | String _ _, EmptyString => None
  end.

Fixpoint under (prefix : string) (l : list (string * string))
  : list (string * string) :=
  match l with
  | [] => []
  | (k, v) :: t =>
      match strip prefix k with
      | Some k' => (k', v) :: under prefix t
      | None => under prefix t
      end
  end.

Definition apply_limit {A : Type} (limit : Z) (l : list A) : list A :=
  if limit =? 0 then l else firstn (Z.to_nat limit) l.

(** [Query{Orders: OrderByKeyDescending, Limit: limit}] on the store
    wrapped under [prefix]. *)
Definition QueryDesc (s : Store) (prefix : string) (limit : Z)
  : result (list (string * string)) :=
  guard s (Ok (apply_limit limit (sort_desc (under prefix (entries s))))).

End KV.

(* ------------------------------------------------------------------ *)
(** ** The key-value backend ([datastoreblocklist.go])

    The three handles of a [DatastoreBlocklist] are views of one store [d]:
    [datastore] is [d] itself, [safemodestore] is [d] wrapped under
    [/safemode] and then [/blocklist], [auditstore] is [d] wrapped under
    [/safemode] and then [/audit].  An operation takes the store and gives
    back the store it leaves, together with what it returns. *)
Module DatastoreBlocklist.
Section Backend.

Variable C : Collab.

Definition safemodestore : string := "/safemode/blocklist".
Definition auditstore : string := "/safemode/audit".

Definition cidToKey (id : Cid) : result string :=
  if Version id =? 0 then
    hash <- FromB58String C (cid_String C id) ;;
    Ok (CidToDsKey C (NewCidV1 DagProtobuf hash))
  else Ok (CidToDsKey C id).

Definition Contains (d : KV.Store) (id : Cid) : result bool :=
  if negb (Defined id) then Err ErrNotFound
  else
    k <- cidToKey id ;;
    KV.Has d (safemodestore ++ k).

Definition Block (d : KV.Store) (id : Cid) (data : BlockData)
  : KV.Store * result bool :=
  match cidToKey id with
  | Ok k =>
      match Contains d id with
      | Ok true => (d, Ok false)
      | Ok false =>
          let bi := mkBlocklistItem (cid_String C id) (dContent data)
                                    (dReason data) (dUser data) in
          match BlocklistItem_MarshalBinary C bi with
          | Ok rawBi =>
              match KV.Put d (safemodestore ++ k) rawBi with
              | Ok d' => (d', Ok true)
              | Err e => (d, Err e)
              | Panic => (d, Panic)
              end
          | Err e => (d, Err e)
          | Panic => (d, Panic)
          end
      | Err e => (d, Err e)
      | Panic => (d, Panic)
      end
  | Err e => (d, Err e)
  | Panic => (d, Panic)
  end.

Definition Unblock (d : KV.Store) (id : Cid) : KV.Store * result unit :=
  match cidToKey id with
  | Ok k =>
      match KV.Delete d (safemodestore ++ k) with
      | Ok d' => (d', Ok tt)
      | Err e => (d, Err e)
      | Panic => (d, Panic)
      end
  | Err e => (d, Err e)
  | Panic => (d, Panic)
  end.

Definition Search (d : KV.Store) (id : Cid) : result BlocklistItem :=
  k <- cidToKey id ;;
  v <- KV.Get d (safemodestore ++ k) ;;
  BlocklistItem_UnmarshalBinary C zeroItem v.

Definition Purge (d : KV.Store) (id : Cid) : KV.Store * result unit :=
  match cidToKey id with
  | Ok k =>
      match KV.Delete d k with
      | Ok d' => (d', Ok tt)
      | Err e => (d, Err e)
      | Panic => (d, Panic)
      end
  | Err e => (d, Err e)
  | Panic => (d, Panic)
  end.

(** The loop of [GetLogs] over the query's results. *)
Fixpoint decode_all (rr : list (string * string)) (acts : list Action)
  : result (list Action) :=
  match rr with
  | [] => Ok acts
  | res :: rest =>
      l <- Action_UnmarshalBinary C zeroAction (snd res) ;;
      decode_all rest (acts ++ [l])
  end.

(** [make([]*Action, 0, limit)] comes after the query and panics on a
    capacity the runtime refuses: a negative one, or one beyond what it
    allocates. *)
Definition GetLogs (d : KV.Store) (limit : Z) : result (list Action) :=
  rr <- KV.QueryDesc d auditstore limit ;;
  if Go.cap_ok Go.ptrSize limit then decode_all rr [] else Panic.

(** The value [Put] returns is dropped by the source. *)
Definition AddLog (d : KV.Store) (act : Action) : KV.Store * result unit :=
  if bad_typ (Typ act) then (d, Err (ErrUnexpectedActionType (Typ act)))
  else
    let k := NewKey C (Format_RFC3339 C (CreatedAt act)) in
    match Action_MarshalBinary C act with
    | Ok rawLi =>
        match KV.Put d (auditstore ++ k) rawLi with
        | Ok d' => (d', Ok tt)
        | _ => (d, Ok tt)
        end
    | Err e => (d, Err e)
    | Panic => (d, Panic)
    end.

End Backend.
End DatastoreBlocklist.

(* ------------------------------------------------------------------ *)
(** ** Reference semantics of the relational store (gorm over Postgres)

    Two tables.  Every row embeds [gorm.Model], of which the primary key and
    the soft-delete marker matter here.  A condition built from a struct
    tests its non-zero fields only.  [First] and [Find] read into a model
    with a soft-delete marker and so skip soft-deleted rows; [Count] reads
    into an [int64], has no model and counts them too.  [First] takes the
    match with the least primary key; [Create] assigns the next primary key
    and, for a log row, the creation time.  [Delete] needs the model of the
    value it is given, and fails where the value has none.  As for the other
    store, a [fault] makes every call that reaches the database fail. *)
Record Model : Type := mkModel { ID : Z; DeletedAt : option Time }.

Record PgBlocklistItem : Type := mkPgBlocklistItem {
  pModel : Model;
  pHash : string;
  pContent : string;
  pReason : string;
  pUser : string
}.

Record PgLogItem : Type := mkPgLogItem {
  lModel : Model;
  lTyp : string;
  RawIds : string;
  lReason : string;
  lUser : string;
  lCreatedAt : Time
}.

Module SQL.

Record DB : Type := mkDB {
  blocklist : list PgBlocklistItem;
  auditlog : list PgLogItem;
  nextID : Z;
  now : Time;
  fault : option string
}.

Definition empty : DB := mkDB [] [] 1 zeroTime None.

Definition guard {A : Type} (db : DB) (r : result A) : result A :=
  match fault db with
  | Some msg => Err (ErrExternal msg)
  | None => r
  end.

Definition live (m : Model) : bool :=
  match DeletedAt m with None => true | Some _ => false end.

(** [Where(&PgBlocklistItem{Hash: h})]: no condition at all when [h] is
    the zero value. *)
Definition where_hash (h : string) (r : PgBlocklistItem) : bool :=
  if String.eqb h EmptyString then true else String.eqb (pHash r) h.

(** The same condition in a query that reads into a [PgBlocklistItem]:
    gorm adds [deleted_at IS NULL]. *)
Definition scoped (h : string) (r : PgBlocklistItem) : bool :=
  live (pModel r) && where_hash h r.

(** [Table(t).Where(...).Count(&count)]. *)
Definition Count (db : DB) (h : string) : result Z :=
  guard db (Ok (Z.of_nat (List.length (filter (where_hash h) (blocklist db))))).

Fixpoint least (best : PgBlocklistItem) (l : list PgBlocklistItem)
  : PgBlocklistItem :=
  match l with
  | [] => best
  | r :: t =>
      if ID (pModel r) <? ID (pModel best) then least r t else least best t
  end.

(** [Table(t).Where(...).First(&out)]. *)
Definition First (db : DB) (h : string) : result PgBlocklistItem :=
  guard db (match filter (scoped h) (blocklist db) with
            | [] => Err (ErrExternal "record not found")
            | r :: t => Ok (least r t)
            end).

Definition CreateItem (db : DB) (h c r u : string) : result DB :=
  guard db
    (Ok (mkDB (blocklist db ++
                 [mkPgBlocklistItem (mkModel (nextID db) None) h c r u])
              (auditlog db) (nextID db + 1) (now db) (fault db))).

Definition CreateLog (db : DB) (typ ids r u : string) : result DB :=
  guard db
    (Ok (mkDB (blocklist db)
              (auditlog db ++
                 [mkPgLogItem (mkModel (nextID db) None) typ ids r u (now db)])
              (nextID db + 1) (now db) (fault db))).

(** [Unscoped().Delete(res)] for the [*BlocklistItem] that [Search]
    produced.  The call names no table, so gorm takes the model from the
    type of [res], and a [BlocklistItem] is none: its [Content] is a
    [[]string], which is neither a column nor a relation.  The call fails
    while the model is parsed, before a statement reaches the database, and
    nothing is deleted.  [ErrUnsupportedModel] stands for the error gorm
    returns then, which wraps its [ErrUnsupportedDataType]; the theorems use
    it by name and do not depend on its text. *)
Definition ErrUnsupportedModel : error :=
  ErrExternal "unsupported data type".

Definition UnscopedDelete (db : DB) (res : BlocklistItem) : result DB :=
  Err ErrUnsupportedModel.

(** [Order("created_at DESC, typ")]. *)
Definition log_before (a b : PgLogItem) : bool :=
  (unixNano (lCreatedAt b) <? unixNano (lCreatedAt a)) ||
  ((unixNano (lCreatedAt b) =? unixNano (lCreatedAt a)) &&
   String.leb (lTyp a) (lTyp b)).

Fixpoint insert_log (x : PgLogItem) (l : list PgLogItem) : list PgLogItem :=
  match l with
  | [] => [x]
  | y :: t => if log_before x y then x :: y :: t else y :: insert_log x t
  end.

Definition order_logs (l : list PgLogItem) : list PgLogItem :=
  fold_right insert_log [] l.

(** [Table("auditlog").Order(...).Limit(limit).Find(&logs)]; a negative
    limit lifts the limit.  A limit of 0 is taken as [LIMIT 0]; releases of
    gorm differ on it, and no theorem below rests on it. *)
Definition FindLogs (db : DB) (limit : Z) : result (list PgLogItem) :=
  let rows := order_logs (filter (fun r => live (lModel r)) (auditlog db)) in
  guard db (Ok (if limit <? 0 then rows else firstn (Z.to_nat limit) rows)).

End SQL.

(* ------------------------------------------------------------------ *)
(** ** The relational backend ([PgBlocklist])

    [client] is the database, [datastore] the content store [Purge] deletes
    from. *)
Module PgBlocklist.
Section Backend.

Variable C : Collab.

Definition newline : string := String (ascii_of_nat 10) EmptyString.

Definition Contains (db : SQL.DB) (id : Cid) : result bool :=
  cidv1 <- (if Version id =? 0 then
              hash <- FromB58String C (cid_String C id) ;;
              Ok (cid_String C (NewCidV1 DagProtobuf hash))
            else Ok (cid_String C id)) ;;
  count <- SQL.Count db cidv1 ;;
  Ok (0 <? count).

Definition Block (db : SQL.DB) (id : Cid) (data : BlockData)
  : SQL.DB * result bool :=
  match Contains db id with
  | Ok true => (db, Ok true)
  | Ok false =>
      match SQL.CreateItem db (cid_String C id)
              (Go.Join (dContent data) newline) (dReason data) (dUser data)
      with
      | Ok db' => (db', Ok false)
      | Err e => (db, Err e)
      | Panic => (db, Panic)
      end
  | Err e => (db, Err e)
  | Panic => (db, Panic)
  end.

Definition Search (db : SQL.DB) (id : Cid) : result BlocklistItem :=
  out <- SQL.First db (cid_String C id) ;;
  Ok (mkBlocklistItem (pHash out)
                      (Go.Split (pContent out) (ascii_of_nat 10))
                      (pReason out) (pUser out)).

Definition Unblock (db : SQL.DB) (id : Cid) : SQL.DB * result unit :=
  match Search db id with
  | Ok res =>
      match SQL.UnscopedDelete db res with
      | Ok db' => (db', Ok tt)
      | Err e => (db, Err e)
      | Panic => (db, Panic)
      end
  | Err e => (db, Err e)
  | Panic => (db, Panic)
  end.

Definition Purge (datastore : KV.Store) (id : Cid)
  : KV.Store * result unit :=
  match KV.Delete datastore (CidToDsKey C id) with
  | Ok d' => (d', Ok tt)
  | Err e => (datastore, Err e)
  | Panic => (datastore, Panic)
  end.

(** The inner loop of [GetLogs]:
    [for i, r := range rawIds { id, err := cid.Parse(r); ...; ids[i] = id }]. *)
Fixpoint parse_ids (rawIds : list string) (i : nat) (ids : list Cid)
  : result (list Cid) :=
  match rawIds with
  | [] => Ok ids
  | r :: rest =>
      id <- cid_Parse C r ;;
      ids' <- Go.set_index ids i id ;;
      parse_ids rest (S i) ids'
  end.

(** The outer loop: [acts[i] = &Action{...}] for each row. *)
Fixpoint fill_acts (logs : list PgLogItem) (i : nat) (acts : list Action)
  : result (list Action) :=
  match logs with
  | [] => Ok acts
  | log :: rest =>
      let rawIds := Go.Split (RawIds log) ";" in
      ids <- parse_ids rawIds 0 (Go.make CidUndef 0 (List.length rawIds)) ;;
      acts' <- Go.set_index acts i
                 (mkAction (lTyp log) ids (lReason log) (lUser log)
                           (lCreatedAt log)) ;;
      fill_acts rest (S i) acts'
  end.

Definition GetLogs (db : SQL.DB) (limit : Z) : result (list Action) :=
  logs <- SQL.FindLogs db limit ;;
  fill_acts logs 0 (Go.make zeroAction (List.length logs) (List.length logs)).

(** The loop of [AddLog]:
    [for i, id := range act.Ids { rawIds[i] = id.String() }]. *)
Fixpoint render_ids (ids : list Cid) (i : nat) (rawIds : list string)
  : result (list string) :=
  match ids with
  | [] => Ok rawIds
  | id :: rest =>
      rawIds' <- Go.set_index rawIds i (cid_String C id) ;;
      render_ids rest (S i) rawIds'
  end.

Definition AddLog (db : SQL.DB) (act : Action) : SQL.DB * result unit :=
  if bad_typ (Typ act) then (db, Err (ErrUnexpectedActionType (Typ act)))
  else
    match render_ids (Ids act) 0
            (Go.make EmptyString 0 (List.length (Ids act))) with
    | Ok rawIds =>
        match SQL.CreateLog db (Typ act) (Go.Join rawIds ";")
                (aReason act) (aUser act)
        with
        | Ok db' => (db', Ok tt)
        | Err e => (db, Err e)
        | Panic => (db, Panic)
        end
    | Err e => (db, Err e)
    | Panic => (db, Panic)
    end.

End Backend.
End PgBlocklist.

(* ------------------------------------------------------------------ *)
(** ** A reference instance of the library functions

    Models that compute, on which the hypotheses of the theorems below are
    checked and the round trip of the encodings is proved.
    - encoding/json: the two records are written field by field in the order
      of their declaration; a string is written with the escapes of
      [Marshal] (quote, backslash, control bytes, and the HTML-sensitive
      [<], [>], [&]), well-formed UTF-8 is copied, every other byte becomes
      U+FFFD, and U+2028 and U+2029 are escaped; a nil slice
      is [null]; a CID is the object go-cid writes; a time is its RFC 3339
      text with nanoseconds, refused outside the years 0 to 9999.  The
      reader accepts the layout the writer produces, and [null]; the other
      layouts of the same JSON values (white space, another order of the
      fields) are outside it.
    - time: RFC 3339 as [Time.Format] writes it.
    - go-cid, go-multihash, go-ipfs-ds-help: the text of a CID keeps the
      leading [Qm] (version 0) and [b] (version 1) of go-cid, with the codec
      in decimal and the multihash in hexadecimal in place of the base-58 and
      base-32 alphabets; the datastore key of a CID is made of its bytes,
      so of the multihash alone for version 0 and of version, codec and
      multihash for version 1. *)
Module Ref.

Definition digit (n : Z) : ascii := ascii_of_N (Z.to_N (48 + n mod 10)).

Definition pad2 (n : Z) : string :=
  String (digit (n / 10)) (String (digit n) EmptyString).

Definition pad4 (n : Z) : string := pad2 (n / 100) ++ pad2 n.

(** Year, month and day of a day count from 1970-01-01. *)
Definition civil_from_days (days : Z) : Z * Z * Z :=
  let z := days + 719468 in
  let era := z / 146097 in
  let doe := z - era * 146097 in
  let yoe := (doe - doe / 1460 + doe / 36524 - doe / 146096) / 365 in
  let doy := doe - (365 * yoe + yoe / 4 - yoe / 100) in
  let mp := (5 * doy + 2) / 153 in
  let d := doy - (153 * mp + 2) / 5 + 1 in
  let m := if mp <? 10 then mp + 3 else mp - 9 in
  let y := yoe + era * 400 + (if m <=? 2 then 1 else 0) in
  (y, m, d).

Definition days_from_civil (y m d : Z) : Z :=
  let y' := if m <=? 2 then y - 1 else y in
  let era := y' / 400 in
  let yoe := y' - era * 400 in
  let mp := if 2 <? m then m - 3 else m + 9 in
  let doy := (153 * mp + 2) / 5 + d - 1 in
  let doe := yoe * 365 + yoe / 4 - yoe / 100 + doy in
  era * 146097 + doe - 719468.

Definition zone (offset : Z) : string :=
  if offset =? 0 then "Z"
  else
    let a := Z.abs offset / 60 in
    (if offset <? 0 then "-" else "+") ++ pad2 (a / 60) ++ ":" ++ pad2 (a mod 60).

(** Date and time of day of [t] in its own zone. *)
Definition datetime (t : Time) : string :=
  let secs := unixNano t / 1000000000 + zoneOffset t in
  let '(y, m, d) := civil_from_days (secs / 86400) in
  let r := secs mod 86400 in
  pad4 y ++ "-" ++ pad2 m ++ "-" ++ pad2 d ++ "T" ++
  pad2 (r / 3600) ++ ":" ++ pad2 (r / 60 mod 60) ++ ":" ++ pad2 (r mod 60).

(** [t.Format("2006-01-02T15:04:05Z07:00")]. *)
Definition Format_RFC3339 (t : Time) : string :=
  datetime t ++ zone (zoneOffset t).

(** *** Bytes and hexadecimal digits *)

(** The value of a byte, and the byte of a value. *)
Definition byte (c : ascii) : Z := Z.of_N (N_of_ascii c).
Definition chr (n : Z) : ascii := ascii_of_N (Z.to_N n).

Definition hexdigit (n : Z) : ascii :=
  ascii_of_N (Z.to_N (if n <? 10 then 48 + n else 87 + n)).

Definition hexval (c : ascii) : option Z :=
  let n := byte c in
  if (48 <=? n) && (n <=? 57) then Some (n - 48)
  else if (97 <=? n) && (n <=? 102) then Some (n - 87)
  else if (65 <=? n) && (n <=? 70) then Some (n - 55)
  else None.

(** Two hexadecimal digits for each byte, and back. *)
Fixpoint hex (s : string) : string :=
  match s with
  | EmptyString => EmptyString
  | String c r =>
      String (hexdigit (byte c / 16)) (String (hexdigit (byte c mod 16)) (hex r))
  end.

Fixpoint unhex (s : string) : option string :=
  match s with
  | EmptyString => Some EmptyString
  | String a (String b r) =>
      match hexval a, hexval b, unhex r with
      | Some x, Some y, Some t => Some (String (chr (16 * x + y)) t)
      | _, _, _ => None
      end
  | String _ EmptyString => None
  end.

(** *** CIDs as text, multihashes, datastore keys *)

Definition decimal (n : N) : string := NilZero.string_of_uint (N.to_uint n).

Definition cid_String (c : Cid) : string :=
  match c with
  | CidUndef => "b"
  | CidV0 h => "Qm" ++ hex h
  | CidV1 codec h => "b" ++ decimal codec ++ ":" ++ hex h
  end.

(** The text before the first [sep] and the text after it. *)
Fixpoint cut (sep : ascii) (s : string) : option (string * string) :=
  match s with
  | EmptyString => None
  | String c r =>
      if Ascii.eqb c sep then Some (EmptyString, r)
      else match cut sep r with
           | Some (a, b) => Some (String c a, b)
           | None => None
           end
  end.

Definition cid_Parse (s : string) : result Cid :=
  match s with
  | String "Q" (String "m" r) =>
      match unhex r with
      | Some h => Ok (CidV0 h)
      | None => Err (ErrExternal "invalid cid")
      end
  | String "b" r =>
      match cut ":" r with
      | Some (digits, r') =>
          match NilZero.uint_of_string digits, unhex r' with
          | Some u, Some h => Ok (CidV1 (N.of_uint u) h)
          | _, _ => Err (ErrExternal "invalid cid")
          end
      | None => Err (ErrExternal "invalid cid")
      end
  | _ => Err (ErrExternal "invalid cid")
  end.

Definition FromB58String (s : string) : result Multihash :=
  match s with
  | String "Q" (String "m" r) =>
      match unhex r with
      | Some h => Ok h
      | None => Err (ErrExternal "invalid multihash")
      end
  | _ => Err (ErrExternal "invalid multihash")
  end.

(** The key is made of the bytes of the CID: the bare multihash for
    version 0, and the version, the codec and the multihash for version 1. *)
Definition CidToDsKey (c : Cid) : string :=
  match c with
  | CidUndef => "/"
  | CidV0 h => "/" ++ hex h
  | CidV1 codec h => "/1:" ++ decimal codec ++ ":" ++ hex h
  end.

Definition NewKey (s : string) : string :=
  match s with
  | String "/" _ => s
  | _ => "/" ++ s
  end.

(** *** JSON text *)

Definition dq : ascii := ascii_of_nat 34.
Definition quote_mark : string := String dq EmptyString.


Definition between (lo hi : Z) (b : ascii) : bool :=
  (lo <=? byte b) && (byte b <=? hi).

(** UTF-8: a continuation byte, and the well-formed sequences of two, three
    and four bytes (the ones [utf8.DecodeRune] accepts). *)
Definition cont (b : ascii) : bool := between 128 191 b.

Definition valid2 (b0 b1 : ascii) : bool := between 194 223 b0 && cont b1.

Definition valid3 (b0 b1 b2 : ascii) : bool :=
  (((byte b0 =? 224) && between 160 191 b1) ||
   ((between 225 236 b0 || between 238 239 b0) && cont b1) ||
   ((byte b0 =? 237) && between 128 159 b1)) && cont b2.

Definition valid4 (b0 b1 b2 b3 : ascii) : bool :=
  (((byte b0 =? 240) && between 144 191 b1) ||
   (between 241 243 b0 && cont b1) ||
   ((byte b0 =? 244) && between 128 143 b1)) && cont b2 && cont b3.

(** U+2028 and U+2029, the two code points written as escapes. *)
Definition line_sep (b0 b1 b2 : ascii) : bool :=
  (byte b0 =? 226) && (byte b1 =? 128) && between 168 169 b2.

(** One byte below 128 inside a JSON string literal. *)
Definition escape_char (c : ascii) : string :=
  let n := byte c in
  if n =? 34 then String "\" quote_mark
  else if n =? 92 then "\\"
  else if n =? 10 then "\n"
  else if n =? 13 then "\r"
  else if n =? 9 then "\t"
  else if n =? 8 then "\b"
  else if n =? 12 then "\f"
  else if (n <? 32) || (n =? 60) || (n =? 62) || (n =? 38)
       then "\u00" ++ String (hexdigit (n / 16))
                        (String (hexdigit (n mod 16)) EmptyString)
  else String c EmptyString.

(** The inside of a string literal: bytes below 128 are escaped where JSON
    or HTML safety asks for it, well-formed UTF-8 sequences are copied, and
    every byte that is not part of one is written as U+FFFD (its three
    bytes).  Older releases of Go wrote the escapes of U+0008, U+000C and
    U+FFFD where the current ones write a backslash with [b] or [f] and the
    bytes of U+FFFD; both forms read back to the same string. *)
Fixpoint escape (s : string) : string :=
  match s with
  | EmptyString => EmptyString
  | String b0 r0 =>
      if byte b0 <? 128 then escape_char b0 ++ escape r0
      else
        let bad :=
          String (chr 239) (String (chr 191) (String (chr 189) (escape r0))) in
        match r0 with
        | String b1 r1 =>
            if valid2 b0 b1 then String b0 (String b1 (escape r1))
            else
              match r1 with
              | String b2 r2 =>
                  if valid3 b0 b1 b2 then
                    if line_sep b0 b1 b2
                    then "\u202" ++ String (hexdigit (byte b2 - 160)) (escape r2)
                    else String b0 (String b1 (String b2 (escape r2)))
                  else
                    match r2 with
                    | String b3 r3 =>
                        if valid4 b0 b1 b2 b3
                        then String b0 (String b1 (String b2 (String b3 (escape r3))))
                        else bad
                    | EmptyString => bad
                    end
              | EmptyString => bad
              end
        | EmptyString => bad
        end
  end.

Definition quote (s : string) : string := quote_mark ++ escape s ++ quote_mark.


Definition hex4 (a b c d : ascii) : option Z :=
  match hexval a, hexval b, hexval c, hexval d with
  | Some x, Some y, Some z, Some w => Some (4096 * x + 256 * y + 16 * z + w)
  | _, _, _, _ => None
  end.

(** The UTF-8 bytes of a code point below 65536. *)
Definition utf8_encode (n : Z) : string :=
  if n <? 128 then String (chr n) EmptyString
  else if n <? 2048 then
    String (chr (192 + n / 64)) (String (chr (128 + n mod 64)) EmptyString)
  else
    String (chr (224 + n / 4096))
      (String (chr (128 + n / 64 mod 64))
         (String (chr (128 + n mod 64)) EmptyString)).

(** The byte a one-letter escape stands for. *)
Definition simple_escape (e : ascii) : option ascii :=
  let n := byte e in
  if n =? 34 then Some e
  else if n =? 92 then Some e
  else if n =? 47 then Some e
  else if n =? 39 then Some e
  else if n =? 98 then Some (chr 8)
  else if n =? 102 then Some (chr 12)
  else if n =? 110 then Some (chr 10)
  else if n =? 114 then Some (chr 13)
  else if n =? 116 then Some (chr 9)
  else None.

Definition prepend (p : string) (r : option (string * string))
  : option (string * string) :=
  match r with
  | Some (t, rest) => Some (p ++ t, rest)
  | None => None
  end.

(** The rest of a string literal, after its opening quote: the string it
    denotes and the text after its closing quote.  Control bytes are
    refused, bytes that are not well-formed UTF-8 are read as U+FFFD; the
    escape of half a surrogate pair is not read. *)
Fixpoint read_chars (s : string) : option (string * string) :=
  match s with
  | EmptyString => None
  | String c r =>
      if byte c =? 34 then Some (EmptyString, r)
      else if byte c =? 92 then
        match r with
        | String e r1 =>
            match simple_escape e with
            | Some x => prepend (String x EmptyString) (read_chars r1)
            | None =>
                if byte e =? 117 then
                  match r1 with
                  | String h1 (String h2 (String h3 (String h4 r2))) =>
                      match hex4 h1 h2 h3 h4 with
                      | Some n =>
                          if (55296 <=? n) && (n <=? 57343) then None
                          else prepend (utf8_encode n) (read_chars r2)
                      | None => None
                      end
                  | _ => None
                  end
                else None
            end
        | EmptyString => None
        end
      else if byte c <? 32 then None
      else if byte c <? 128 then prepend (String c EmptyString) (read_chars r)
      else
        let bad := prepend (utf8_encode 65533) (read_chars r) in
        match r with
        | String b1 r1 =>
            if valid2 c b1
            then prepend (String c (String b1 EmptyString)) (read_chars r1)
            else
              match r1 with
              | String b2 r2 =>
                  if valid3 c b1 b2
                  then prepend (String c (String b1 (String b2 EmptyString)))
                               (read_chars r2)
                  else
                    match r2 with
                    | String b3 r3 =>
                        if valid4 c b1 b2 b3
                        then prepend (String c (String b1 (String b2
                                        (String b3 EmptyString))))
                                     (read_chars r3)
                        else bad
                    | EmptyString => bad
                    end
              | EmptyString => bad
              end
        | EmptyString => bad
        end
  end.

(** [utf8.ValidString]: the string is a sequence of well-formed UTF-8
    sequences. *)
Fixpoint valid_utf8 (s : string) : bool :=
  match s with
  | EmptyString => true
  | String b0 r0 =>
      if byte b0 <? 128 then valid_utf8 r0
      else
        match r0 with
        | String b1 r1 =>
            if valid2 b0 b1 then valid_utf8 r1
            else
              match r1 with
              | String b2 r2 =>
                  if valid3 b0 b1 b2 then valid_utf8 r2
                  else
                    match r2 with
                    | String b3 r3 =>
                        if valid4 b0 b1 b2 b3 then valid_utf8 r3 else false
                    | EmptyString => false
                    end
              | EmptyString => false
              end
        | EmptyString => false
        end
  end.

(** A string of bytes below 128. *)
Fixpoint plain (s : string) : bool :=
  match s with
  | EmptyString => true
  | String c r => (byte c <? 128) && plain r
  end.

(** A string literal at the head of [s]. *)
Definition read_string (s : string) : option (string * string) :=
  match s with
  | String c r => if Ascii.eqb c dq then read_chars r else None
  | EmptyString => None
  end.

(** [s] without the prefix [p]. *)
Fixpoint lit (p s : string) : option string :=
  match p, s with
  | EmptyString, _ => Some s
  | String a p', String b s' => if Ascii.eqb a b then lit p' s' else None
  | String _ _, EmptyString => None
  end.

(** The elements of an array after its opening bracket. *)
Fixpoint read_items {A : Type} (elem : string -> option (A * string))
         (fuel : nat) (s : string) : option (list A * string) :=
  match fuel with
  | O => None
  | S fuel' =>
      match elem s with
      | Some (x, String "," r) =>
          match read_items elem fuel' r with
          | Some (xs, rest) => Some (x :: xs, rest)
          | None => None
          end
      | Some (x, String "]" r) => Some ([x], r)
      | _ => None
      end
  end.

(** [null], [[]] or an array of elements. *)
Definition read_array {A : Type} (elem : string -> option (A * string))
           (s : string) : option (list A * string) :=
  match s with
  | String "n" (String "u" (String "l" (String "l" r))) => Some ([], r)
  | String "[" (String "]" r) => Some ([], r)
  | String "[" r => read_items elem (S (String.length r)) r
  | _ => None
  end.

Fixpoint write_items {A : Type} (elem : A -> string) (l : list A) : string :=
  match l with
  | [] => EmptyString
  | [x] => elem x
  | x :: t => elem x ++ "," ++ write_items elem t
  end.

(** A nil slice is written [null]. *)
Definition write_array {A : Type} (elem : A -> string) (l : list A) : string :=
  match l with
  | [] => "null"
  | _ => "[" ++ write_items elem l ++ "]"
  end.

Definition obind {A B : Type} (o : option A) (k : A -> option B) : option B :=
  match o with Some a => k a | None => None end.

Definition key (name : string) : string :=
  quote_mark ++ name ++ quote_mark ++ ":".

(** *** [BlocklistItem] as JSON *)

Definition write_item (b : BlocklistItem) : string :=
  "{" ++ key "Hash" ++ quote (Hash b) ++
  "," ++ key "Content" ++ write_array quote (Content b) ++
  "," ++ key "Reason" ++ quote (Reason b) ++
  "," ++ key "User" ++ quote (User b) ++ "}".

Definition read_item (s : string) : option BlocklistItem :=
  obind (lit ("{" ++ key "Hash") s) (fun s =>
  obind (read_string s) (fun '(h, s) =>
  obind (lit ("," ++ key "Content") s) (fun s =>
  obind (read_array read_string s) (fun '(c, s) =>
  obind (lit ("," ++ key "Reason") s) (fun s =>
  obind (read_string s) (fun '(r, s) =>
  obind (lit ("," ++ key "User") s) (fun s =>
  obind (read_string s) (fun '(u, s) =>
  match s with
  | String "}" EmptyString => Some (mkBlocklistItem h c r u)
  | _ => None
  end)))))))).

Definition json_Marshal_item (b : BlocklistItem) : result string :=
  Ok (write_item b).

(** [json.Unmarshal(data, &b)] with [b] the receiver, a pointer: the text
    [null] sets the local pointer to nil, so the call returns nil and the
    receiver is as it was. *)
Definition json_Unmarshal_item (data : string) (recv : BlocklistItem)
  : result BlocklistItem :=
  match read_item data with
  | Some b => Ok b
  | None =>
      if String.eqb data "null" then Ok recv
      else Err (ErrExternal "invalid JSON")
  end.

(** A record all of whose strings are valid UTF-8. *)
Definition utf8_item (b : BlocklistItem) : bool :=
  valid_utf8 (Hash b) && forallb valid_utf8 (Content b) &&
  valid_utf8 (Reason b) && valid_utf8 (User b).

(** *** [time.Time] as JSON: RFC 3339 with nanoseconds *)

Fixpoint trim0 (s : string) : string :=
  match s with
  | EmptyString => EmptyString
  | String c r =>
      match trim0 r with
      | EmptyString => if Ascii.eqb c "0" then EmptyString
                       else String c EmptyString
      | r' => String c r'
      end
  end.

Definition pad9 (n : Z) : string :=
  pad2 (n / 10000000) ++ pad2 (n / 100000) ++ pad2 (n / 1000) ++
  pad2 (n / 10) ++ String (digit n) EmptyString.

Definition fraction (nanos : Z) : string :=
  if nanos =? 0 then EmptyString else "." ++ trim0 (pad9 nanos).

Definition Format_RFC3339Nano (t : Time) : string :=
  datetime t ++ fraction (unixNano t mod 1000000000) ++ zone (zoneOffset t).

Definition year (t : Time) : Z :=
  let secs := unixNano t / 1000000000 + zoneOffset t in
  fst (fst (civil_from_days (secs / 86400))).

Definition digitval (c : ascii) : option Z :=
  let n := Z.of_N (N_of_ascii c) in
  if (48 <=? n) && (n <=? 57) then Some (n - 48) else None.

(** Exactly [k] decimal digits. *)
Fixpoint digits (k : nat) (acc : Z) (s : string) : option (Z * string) :=
  match k with
  | O => Some (acc, s)
  | S k' =>
      match s with
      | String c r =>
          match digitval c with
          | Some d => digits k' (10 * acc + d) r
          | None => None
          end
      | EmptyString => None
      end
  end.

(** The digits of a fraction of a second, as nanoseconds. *)
Fixpoint read_fraction (scale acc : Z) (s : string) : Z * string :=
  match s with
  | String c r =>
      match digitval c with
      | Some d => read_fraction (scale / 10) (acc + d * scale) r
      | None => (acc, s)
      end
  | EmptyString => (acc, s)
  end.

(** The fraction of a second, when there is one. *)
Definition read_nanos (s : string) : Z * string :=
  match s with
  | String "." r => read_fraction 100000000 0 r
  | _ => (0, s)
  end.

Definition read_zone (s : string) : option (Z * string) :=
  match s with
  | String "Z" r => Some (0, r)
  | String sign r =>
      obind (digits 2 0 r) (fun '(h, r) =>
      obind (lit ":" r) (fun r =>
      obind (digits 2 0 r) (fun '(m, r) =>
      let off := h * 3600 + m * 60 in
      if Ascii.eqb sign "+" then Some (off, r)
      else if Ascii.eqb sign "-" then Some (- off, r)
      else None)))
  | EmptyString => None
  end.

Definition read_time (s : string) : option (Time * string) :=
  obind (digits 4 0 s) (fun '(y, s) =>
  obind (lit "-" s) (fun s =>
  obind (digits 2 0 s) (fun '(m, s) =>
  obind (lit "-" s) (fun s =>
  obind (digits 2 0 s) (fun '(d, s) =>
  obind (lit "T" s) (fun s =>
  obind (digits 2 0 s) (fun '(h, s) =>
  obind (lit ":" s) (fun s =>
  obind (digits 2 0 s) (fun '(mi, s) =>
  obind (lit ":" s) (fun s =>
  obind (digits 2 0 s) (fun '(sec, s) =>
  let '(nanos, s) := read_nanos s in
  obind (read_zone s) (fun '(off, s) =>
  Some (mkTime ((days_from_civil y m d * 86400 + h * 3600 + mi * 60 + sec
                 - off) * 1000000000 + nanos) off, s))))))))))))).

(** Decimal digits as text, and the number of nanoseconds they stand for
    after the point, the first digit weighing [scale]. *)
Fixpoint digit_string (l : list Z) : string :=
  match l with
  | [] => EmptyString
  | d :: l' => String (digit d) (digit_string l')
  end.

Fixpoint fraction_value (scale : Z) (l : list Z) : Z :=
  match l with
  | [] => 0
  | d :: l' => d mod 10 * scale + fraction_value (scale / 10) l'
  end.

(** The text does not go on with a digit. *)
Definition stops (z : string) : Prop :=
  match z with
  | EmptyString => True
  | String c _ => digitval c = None
  end.

(** A time that RFC 3339 can carry: a year of four digits and a zone offset
    of whole minutes, less than a day. *)
Definition rfc3339_time (t : Time) : bool :=
  (0 <=? year t) && (year t <=? 9999) &&
  (zoneOffset t mod 60 =? 0) && (Z.abs (zoneOffset t) <? 86400).

(** *** [Action] as JSON *)

(** A CID is written as the object [{"/": text}], the zero CID as [null]. *)
Definition write_cid (c : Cid) : string :=
  if Defined c then "{" ++ key "/" ++ quote (cid_String c) ++ "}"
  else "null".

Definition read_cid (s : string) : option (Cid * string) :=
  match s with
  | String "n" (String "u" (String "l" (String "l" r))) => Some (CidUndef, r)
  | _ =>
      obind (lit ("{" ++ key "/") s) (fun s =>
      obind (read_string s) (fun '(text, s) =>
      obind (lit "}" s) (fun s =>
      match cid_Parse text with
      | Ok c => Some (c, s)
      | _ => None
      end)))
  end.

Definition write_action (a : Action) : string :=
  "{" ++ key "Typ" ++ quote (Typ a) ++
  "," ++ key "Ids" ++ write_array write_cid (Ids a) ++
  "," ++ key "Reason" ++ quote (aReason a) ++
  "," ++ key "User" ++ quote (aUser a) ++
  "," ++ key "CreatedAt" ++
  quote_mark ++ Format_RFC3339Nano (CreatedAt a) ++ quote_mark ++ "}".

Definition read_action (s : string) : option Action :=
  obind (lit ("{" ++ key "Typ") s) (fun s =>
  obind (read_string s) (fun '(t, s) =>
  obind (lit ("," ++ key "Ids") s) (fun s =>
  obind (read_array read_cid s) (fun '(ids, s) =>
  obind (lit ("," ++ key "Reason") s) (fun s =>
  obind (read_string s) (fun '(r, s) =>
  obind (lit ("," ++ key "User") s) (fun s =>
  obind (read_string s) (fun '(u, s) =>
  obind (lit ("," ++ key "CreatedAt" ++ quote_mark) s) (fun s =>
  obind (read_time s) (fun '(at_, s) =>
  obind (lit quote_mark s) (fun s =>
  match s with
  | String "}" EmptyString => Some (mkAction t ids r u at_)
  | _ => None
  end))))))))))).

(** The text of [c] is valid UTF-8 and parses back to [c]. *)
Definition cid_reads_back (c : Cid) : bool :=
  negb (Defined c) ||
  (valid_utf8 (cid_String c) &&
   match cid_Parse (cid_String c) with
   | Ok c' => Cid_eqb c' c
   | _ => false
   end).

(** An action all of whose strings are valid UTF-8. *)
Definition utf8_action (a : Action) : bool :=
  valid_utf8 (Typ a) && valid_utf8 (aReason a) && valid_utf8 (aUser a).

(** [Time.MarshalJSON] refuses a year outside 0 to 9999. *)
Definition json_Marshal_action (a : Action) : result string :=
  let y := year (CreatedAt a) in
  if (y <? 0) || (9999 <? y)
  then Err (ErrExternal "Time.MarshalJSON: year outside of range [0,9999]")
  else Ok (write_action a).

Definition json_Unmarshal_action (data : string) (recv : Action)
  : result Action :=
  match read_action data with
  | Some a => Ok a
  | None =>
      if String.eqb data "null" then Ok recv
      else Err (ErrExternal "invalid JSON")
  end.

Definition collab : Collab :=
  mkCollab cid_String cid_Parse FromB58String CidToDsKey NewKey
           json_Marshal_item json_Unmarshal_item
           json_Marshal_action json_Unmarshal_action
           Format_RFC3339.

End Ref.

(* ------------------------------------------------------------------ *)
(** * Values and predicates of the statements *)

(** Values on which the statements below are checked. *)
Definition hashX : Multihash := "X".
Definition cidA : Cid := CidV0 hashX.
Definition cidB : Cid := CidV1 DagProtobuf hashX.
Definition alice : BlockData :=
  mkBlockData [] ["https://example.com/x"] "DMCA" "alice@example.com".
Definition bob : BlockData :=
  mkBlockData [] ["https://example.com/y"] "abuse" "bob@example.com".
Definition actX : Action :=
  mkAction "block" [cidB] "DMCA" "alice@example.com"
           (mkTime 1609491600000000000 0).

(** A relational store holding one audit row, as [AddLog] would have written
    it had it got that far. *)
Definition one_log_row : SQL.DB :=
  SQL.mkDB []
    [mkPgLogItem (mkModel 1 None) "block" "b112:58" "DMCA" "alice@example.com"
                 (mkTime 1609491600000000000 0)]
    2 zeroTime None.

(** A key-value store that is out of order. *)
Definition broken_store : KV.Store := KV.mkStore [] (Some "connection refused").

(** How many audit entries a backend holds. *)
Definition ds_log_count (d : KV.Store) : nat :=
  List.length (KV.under DatastoreBlocklist.auditstore (KV.entries d)).

Definition pg_log_count (db : SQL.DB) : nat :=
  List.length (SQL.auditlog db).

(** The relational store after the insert of [Block(id, data)]. *)
Definition pg_inserted (C : Collab) (db : SQL.DB) (id : Cid) (data : BlockData)
  : SQL.DB :=
  SQL.mkDB (SQL.blocklist db ++
              [mkPgBlocklistItem (mkModel (SQL.nextID db) None)
                 (cid_String C id)
                 (Go.Join (dContent data) PgBlocklist.newline)
                 (dReason data) (dUser data)])
           (SQL.auditlog db) (SQL.nextID db + 1) (SQL.now db) (SQL.fault db).

(** Two actions an hour apart, the earlier one stamped in a zone two hours
    east of UTC. *)
Definition actEarly : Action :=
  mkAction "block" [cidB] "DMCA" "alice@example.com"
           (mkTime 1609488000000000000 7200).




(** [acts] are the values of [rr], decoded one by one. *)
Definition decoded (C : Collab) (rr : list (string * string))
           (acts : list Action) : Prop :=
  Forall2 (fun res a => Action_UnmarshalBinary C zeroAction (snd res) = Ok a)
          rr acts.

(** An accented letter and a line separator survive, a stray byte does
    not. *)
Definition e_acute : string :=
  String (Ref.chr 195) (String (Ref.chr 169) EmptyString).
Definition line_separator : string :=
  String (Ref.chr 226) (String (Ref.chr 128)
    (String (Ref.chr 168) EmptyString)).
Definition stray_byte : string := String (Ref.chr 255) EmptyString.

(** Values that do not survive their JSON: an item with a byte that is not
    UTF-8, an action in the year 10000, an action stamped in a zone thirty
    seconds east of UTC. *)
Definition item_stray : BlocklistItem :=
  mkBlocklistItem "b112:58" ["https://example.com/x"] stray_byte
                  "alice@example.com".
Definition act_far : Action :=
  mkAction "block" [cidB] "DMCA" "alice@example.com"
           (mkTime 253402300800000000000 0).
Definition act_odd_zone : Action :=
  mkAction "block" [cidB] "DMCA" "alice@example.com"
           (mkTime 1609491600000000000 30).

(** A store holding the payload of [cidB] and nothing else. *)
Definition payload_store : KV.Store :=
  KV.mkStore [("/1:112:58", "payload")] None.

(** Two actions logged within one second, and a store whose one audit entry
    is not JSON. *)
Definition actSoon : Action :=
  mkAction "unblock" [cidB] "appeal" "bob@example.com"
           (mkTime 1609491600500000000 0).
Definition corrupt_log : KV.Store :=
  KV.mkStore [("/safemode/audit/2021-01-01T09:00:00Z", "not json")] None.


(** A relational store whose one blocklist row, for [cidB], is
    soft-deleted. *)
Definition soft_deleted_row : SQL.DB :=
  SQL.mkDB [mkPgBlocklistItem (mkModel 1 (Some zeroTime)) "b112:58"
                              "https://example.com/x" "DMCA"
                              "alice@example.com"]
           [] 2 zeroTime None.

(** A relational store that is out of order. *)
Definition broken_db : SQL.DB :=
  SQL.mkDB [] [] 1 zeroTime (Some "connection refused").

(** An action without ids. *)
Definition act_no_ids : Action :=
  mkAction "block" [] "DMCA" "alice@example.com"
           (mkTime 1609491600000000000 0).

(* ------------------------------------------------------------------ *)
(** * Sanity checks of the model *)

Example sample_format_utc :
  Ref.Format_RFC3339 (mkTime 1609491600000000000 0) = "2021-01-01T09:00:00Z".
Proof. vm_compute. reflexivity. Qed.

Example sample_format_offset :
  Ref.Format_RFC3339 (mkTime 1609488000000000000 7200)
  = "2021-01-01T10:00:00+02:00".
Proof. vm_compute. reflexivity. Qed.

Example sample_item_roundtrip :
  let b := mkBlocklistItem "b112:58" ["a<b"; "c"] "DMCA" "alice@example.com" in
  Ref.json_Unmarshal_item (Ref.write_item b) zeroItem = Ok b.
Proof. vm_compute. reflexivity. Qed.

Example sample_action_roundtrip :
  Ref.json_Unmarshal_action (Ref.write_action actX) zeroAction = Ok actX.
Proof. vm_compute. reflexivity. Qed.

Example sample_action_roundtrip_zone :
  let a := mkAction "unblock" [cidA; cidB] "" "bob"
                    (mkTime 1609488000123000000 (-19800)) in
  Ref.json_Unmarshal_action (Ref.write_action a) zeroAction = Ok a.
Proof. vm_compute. reflexivity. Qed.

Example sample_quote_accent :
  Ref.read_string (Ref.quote ("caf" ++ e_acute) ++ ",")
  = Some ("caf" ++ e_acute, ",").
Proof. vm_compute. reflexivity. Qed.

Example sample_quote_line_separator :
  Ref.quote line_separator = Ref.quote_mark ++ "\u2028" ++ Ref.quote_mark /\
  Ref.read_string (Ref.quote line_separator) = Some (line_separator, EmptyString).
Proof. split; vm_compute; reflexivity. Qed.

Example sample_quote_stray_byte :
  Ref.quote stray_byte
  = Ref.quote_mark ++ Ref.utf8_encode 65533 ++ Ref.quote_mark /\
  Ref.read_string (Ref.quote stray_byte)
  = Some (Ref.utf8_encode 65533, EmptyString).
Proof. split; vm_compute; reflexivity. Qed.

(** The escapes older releases of Go wrote read back to the same bytes. *)
Example sample_read_older_escapes :
  Ref.read_string (Ref.quote_mark ++ "\u0008\u000c\ufffd" ++ Ref.quote_mark)
  = Ref.read_string
      (Ref.quote (String (Ref.chr 8) (String (Ref.chr 12) stray_byte))).
Proof. vm_compute. reflexivity. Qed.

Example sample_quote_control :
  Ref.quote ("a<" ++ String (Ref.chr 1) "b")
  = Ref.quote_mark ++ "a\u003c\u0001b" ++ Ref.quote_mark.
Proof. vm_compute. reflexivity. Qed.

(* ------------------------------------------------------------------ *)
(** * Theorems *)

Lemma bad_typ_true (typ : string) :
  typ <> "block" -> typ <> "unblock" -> bad_typ typ = true.
Proof.
  intros Hb Hu. unfold bad_typ.
  apply String.eqb_neq in Hb. apply String.eqb_neq in Hu.
  now rewrite Hb, Hu.
Qed.

Lemma bad_typ_false (typ : string) :
  bad_typ typ = false -> typ = "block" \/ typ = "unblock".
Proof.
  unfold bad_typ.
  destruct (String.eqb_spec typ "block") as [Hb|_]; [now left|].
  destruct (String.eqb_spec typ "unblock") as [Hu|_]; [now right|].
  discriminate.
Qed.

(** C9.  An action whose type is neither "block" nor "unblock" is refused by
    [AddLog] with the unexpected-action-type error, in both backends, and the
    store is left exactly as it was; in particular the number of audit
    entries is the same before and after the call. *)
Theorem C9_invalid_action_type_rejected
  (C : Collab) (act : Action) (d : KV.Store) (db : SQL.DB) :
  Typ act <> "block" -> Typ act <> "unblock" ->
  DatastoreBlocklist.AddLog C d act
    = (d, Err (ErrUnexpectedActionType (Typ act))) /\
  PgBlocklist.AddLog C db act
    = (db, Err (ErrUnexpectedActionType (Typ act))) /\
  ds_log_count (fst (DatastoreBlocklist.AddLog C d act)) = ds_log_count d /\
  pg_log_count (fst (PgBlocklist.AddLog C db act)) = pg_log_count db.
Proof.
  intros Hb Hu.
  pose proof (bad_typ_true Hb Hu) as Hbad.
  unfold DatastoreBlocklist.AddLog, PgBlocklist.AddLog.
  rewrite Hbad. cbn [fst]. repeat split; reflexivity.
Qed.

Lemma C9_invalid_action_type_rejected_witness :
  let act := mkAction "delete" [cidB] "DMCA" "alice@example.com" zeroTime in
  DatastoreBlocklist.AddLog Ref.collab KV.empty act
    = (KV.empty, Err (ErrUnexpectedActionType "delete")) /\
  PgBlocklist.AddLog Ref.collab SQL.empty act
    = (SQL.empty, Err (ErrUnexpectedActionType "delete")) /\
  ds_log_count (fst (DatastoreBlocklist.AddLog Ref.collab KV.empty act))
    = ds_log_count KV.empty /\
  pg_log_count (fst (PgBlocklist.AddLog Ref.collab SQL.empty act))
    = pg_log_count SQL.empty.
Proof.
  intro act.
  apply (@C9_invalid_action_type_rejected Ref.collab act KV.empty SQL.empty);
    discriminate.
Defined.


(** ** The slices of the relational backend's log operations *)

Lemma split_acc_cons (sep : ascii) (s acc : string) :
  exists x xs, Go.split_acc sep acc s = x :: xs.
Proof.
  revert acc. induction s as [|c s IH]; intro acc; cbn.
  - now exists acc, [].
  - destruct (Ascii.eqb c sep).
    + now exists acc, (Go.split_acc sep EmptyString s).
    + apply IH.
Qed.

Lemma Split_cons (s : string) (sep : ascii) :
  exists x xs, Go.Split s sep = x :: xs.
Proof. apply split_acc_cons. Qed.

Section PgLogLoops.

Variable C : Collab.

Lemma render_ids_cons (id : Cid) (rest : list Cid) (cap : nat) :
  PgBlocklist.render_ids C (id :: rest) 0 (Go.make EmptyString 0 cap) = Panic.
Proof. reflexivity. Qed.

Lemma parse_ids_cons (r : string) (rest : list string) (cap : nat) :
  PgBlocklist.parse_ids C (r :: rest) 0 (Go.make CidUndef 0 cap)
  = match cid_Parse C r with
    | Ok _ => Panic
    | Err e => Err e
    | Panic => Panic
    end.
Proof. cbn. now destruct (cid_Parse C r). Qed.

(** No row of the log makes it through the loop of [GetLogs]. *)
Lemma fill_acts_cons_not_ok (log : PgLogItem) (rest : list PgLogItem)
      (i : nat) (acts : list Action) :
  is_ok (PgBlocklist.fill_acts C (log :: rest) i acts) = false.
Proof.
  cbn [PgBlocklist.fill_acts].
  destruct (Split_cons (RawIds log) ";") as (x & xs & ->).
  rewrite parse_ids_cons.
  now destruct (cid_Parse C x).
Qed.

Lemma GetLogs_ok_nil (db : SQL.DB) (limit : Z) (acts : list Action) :
  PgBlocklist.GetLogs C db limit = Ok acts -> acts = [].
Proof.
  unfold PgBlocklist.GetLogs.
  destruct (SQL.FindLogs db limit) as [logs| |]; cbn; try discriminate.
  destruct logs as [|log rest].
  - cbn. now intros [= <-].
  - intros H. pose proof (fill_acts_cons_not_ok log rest 0
      (Go.make zeroAction (List.length (log :: rest))
                          (List.length (log :: rest)))) as Hn.
    rewrite H in Hn. discriminate Hn.
Qed.

End PgLogLoops.

(** C3.  The slices of the relational backend's log operations are indexed
    past their length: both are made with length 0 (and a capacity), and the
    loops assign to index [i].  [AddLog] of a well-typed action with at least
    one id panics at its first id and writes nothing; [GetLogs] panics at the
    first id of the first row it reads, as soon as that id parses. *)
Theorem C3_log_slices_indexed_out_of_range (C : Collab) :
  (forall (db : SQL.DB) (act : Action),
      bad_typ (Typ act) = false -> Ids act <> [] ->
      PgBlocklist.AddLog C db act = (db, Panic)) /\
  (forall (db : SQL.DB) (limit : Z) (log : PgLogItem) (rest : list PgLogItem),
      SQL.FindLogs db limit = Ok (log :: rest) ->
      is_ok (cid_Parse C (hd EmptyString (Go.Split (RawIds log) ";"))) = true ->
      PgBlocklist.GetLogs C db limit = Panic).
Proof.
  split.
  - intros db act Hty Hids. unfold PgBlocklist.AddLog. rewrite Hty.
    destruct (Ids act) as [|id rest]; [contradiction|].
    now rewrite render_ids_cons.
  - intros db limit log rest Hfind Hparse.
    unfold PgBlocklist.GetLogs. rewrite Hfind.
    cbn [bind PgBlocklist.fill_acts].
    destruct (Split_cons (RawIds log) ";") as (x & xs & Hx).
    rewrite Hx in *. rewrite parse_ids_cons. cbn [hd] in Hparse.
    destruct (cid_Parse C x); [reflexivity | discriminate | discriminate].
Qed.

Lemma C3_log_slices_indexed_out_of_range_witness :
  PgBlocklist.AddLog Ref.collab SQL.empty actX = (SQL.empty, Panic) /\
  PgBlocklist.GetLogs Ref.collab one_log_row 1 = Panic.
Proof.
  destruct (C3_log_slices_indexed_out_of_range Ref.collab) as [Hadd Hget].
  split.
  - apply Hadd; [reflexivity | discriminate].
  - apply (Hget one_log_row 1
             (mkPgLogItem (mkModel 1 None) "block" "b112:58" "DMCA"
                          "alice@example.com" (mkTime 1609491600000000000 0))
             []); reflexivity.
Defined.


(** ** Failures of the audit write *)

(** The relational [AddLog] hands a failed insert back to its caller (it
    gets as far as the insert only for an action without ids). *)
Lemma Pg_AddLog_surfaces_write_failure
      (C : Collab) (db : SQL.DB) (act : Action) (e : error) :
  bad_typ (Typ act) = false ->
  Ids act = [] ->
  SQL.CreateLog db (Typ act) EmptyString (aReason act) (aUser act) = Err e ->
  PgBlocklist.AddLog C db act = (db, Err e).
Proof.
  intros Hty Hids Hcreate. unfold PgBlocklist.AddLog.
  rewrite Hty, Hids. cbn. now rewrite Hcreate.
Qed.

(** C5.  In the key-value backend a failed audit write is not returned:
    [AddLog] calls [Put] and drops its result, so with a store whose writes
    fail a well-typed action is reported as logged (nil error) although
    nothing was written. *)
Theorem C5_datastore_AddLog_drops_write_failure
        (C : Collab) (d : KV.Store) (act : Action) (raw msg : string) :
  bad_typ (Typ act) = false ->
  Action_MarshalBinary C act = Ok raw ->
  KV.fault d = Some msg ->
  KV.Put d (DatastoreBlocklist.auditstore
              ++ NewKey C (Format_RFC3339 C (CreatedAt act))) raw
    = Err (ErrExternal msg) /\
  DatastoreBlocklist.AddLog C d act = (d, Ok tt).
Proof.
  intros Hty Hraw Hfault.
  assert (Hput : forall k, KV.Put d k raw = Err (ErrExternal msg)).
  { intro k. unfold KV.Put, KV.guard. now rewrite Hfault. }
  split; [apply Hput|].
  unfold DatastoreBlocklist.AddLog. now rewrite Hty, Hraw, Hput.
Qed.

Lemma C5_datastore_AddLog_drops_write_failure_witness :
  KV.Put broken_store
         (DatastoreBlocklist.auditstore ++ "/2021-01-01T09:00:00Z")
         (Ref.write_action actX)
    = Err (ErrExternal "connection refused") /\
  DatastoreBlocklist.AddLog Ref.collab broken_store actX
    = (broken_store, Ok tt).
Proof.
  apply (@C5_datastore_AddLog_drops_write_failure
           Ref.collab broken_store actX
           (Ref.write_action actX) "connection refused");
    reflexivity.
Defined.


(** ** Facts about the two stores *)

Lemma KV_remove_absent (k : string) (l : list (string * string)) :
  KV.lookup k l = None -> KV.remove k l = l.
Proof.
  induction l as [|[k' v] l IH]; cbn; [reflexivity|].
  destruct (String.eqb k k'); [discriminate|].
  intro H. now rewrite IH.
Qed.

Lemma KV_lookup_remove (k : string) (l : list (string * string)) :
  KV.lookup k (KV.remove k l) = None.
Proof.
  induction l as [|[k' v] l IH]; cbn; [reflexivity|].
  destruct (String.eqb k k') eqn:E; [exact IH|].
  cbn. now rewrite E.
Qed.

(** The rows a scoped query sees are among those the bare condition
    sees. *)
Lemma filter_scoped_nil (h : string) (l : list PgBlocklistItem) :
  filter (SQL.where_hash h) l = [] -> filter (SQL.scoped h) l = [].
Proof.
  induction l as [|r l IH]; cbn; [reflexivity|]. unfold SQL.scoped at 1.
  destruct (SQL.where_hash h r); [discriminate|].
  now rewrite andb_false_r.
Qed.

Lemma SQL_Count_zero_First (db : SQL.DB) (h : string) :
  SQL.Count db h = Ok 0 ->
  SQL.First db h = Err (ErrExternal "record not found").
Proof.
  unfold SQL.Count, SQL.First, SQL.guard.
  destruct (SQL.fault db); [discriminate|].
  destruct (filter (SQL.where_hash h) (SQL.blocklist db)) eqn:E.
  - now rewrite (filter_scoped_nil _ _ E).
  - cbn [List.length]. intros H. injection H as H. lia.
Qed.

(** Every error of the relational [Unblock] is an error of the store. *)
Lemma Pg_Unblock_errors_are_external
      (C : Collab) (db : SQL.DB) (id : Cid) (e : error) :
  snd (PgBlocklist.Unblock C db id) = Err e -> exists msg, e = ErrExternal msg.
Proof.
  unfold PgBlocklist.Unblock, PgBlocklist.Search, SQL.First,
    SQL.UnscopedDelete, SQL.ErrUnsupportedModel, SQL.guard.
  destruct (SQL.fault db) as [msg|]; cbn.
  - intros [= <-]. now exists msg.
  - destruct (filter _ _); cbn; intros [= <-]; now eexists.
Qed.


(** C6.  [Unblock] of a content id without a blocklist entry does not fail
    with [ErrNotFound].  The key-value backend deletes the key without
    looking and returns nil; the relational backend returns the store's
    record-not-found error, and no error of its [Unblock] is ever
    [ErrNotFound]. *)
Theorem C6_Unblock_absent_is_not_ErrNotFound (C : Collab) :
  (forall (d : KV.Store) (id : Cid) (k : string),
      DatastoreBlocklist.cidToKey C id = Ok k ->
      KV.Has d (DatastoreBlocklist.safemodestore ++ k) = Ok false ->
      DatastoreBlocklist.Unblock C d id = (d, Ok tt)) /\
  (forall (db : SQL.DB) (id : Cid),
      SQL.Count db (cid_String C id) = Ok 0 ->
      PgBlocklist.Unblock C db id
        = (db, Err (ErrExternal "record not found"))) /\
  (forall (db : SQL.DB) (id : Cid),
      snd (PgBlocklist.Unblock C db id) <> Err ErrNotFound).
Proof.
  repeat split.
  - intros [l f] id k Hk Hhas.
    unfold DatastoreBlocklist.Unblock. rewrite Hk.
    unfold KV.Has, KV.Delete, KV.guard in *. cbn in *.
    destruct f; [discriminate|].
    destruct (KV.lookup _ l) eqn:E; [discriminate|].
    now rewrite (KV_remove_absent _ _ E).
  - intros db id Hcount.
    unfold PgBlocklist.Unblock, PgBlocklist.Search.
    now rewrite (SQL_Count_zero_First _ _ Hcount).
  - intros db id H.
    destruct (Pg_Unblock_errors_are_external _ _ _ H) as [msg Hmsg].
    discriminate Hmsg.
Qed.

Lemma C6_Unblock_absent_is_not_ErrNotFound_witness :
  DatastoreBlocklist.Unblock Ref.collab KV.empty cidB = (KV.empty, Ok tt) /\
  PgBlocklist.Unblock Ref.collab SQL.empty cidB
    = (SQL.empty, Err (ErrExternal "record not found")).
Proof.
  destruct (C6_Unblock_absent_is_not_ErrNotFound Ref.collab)
    as (Hds & Hpg & _).
  split.
  - apply (Hds KV.empty cidB "/1:112:58"); reflexivity.
  - apply Hpg. reflexivity.
Defined.


(** ** What [Block] returns *)

Lemma DS_Contains_key (C : Collab) (d : KV.Store) (id : Cid) (b : bool) :
  DatastoreBlocklist.Contains C d id = Ok b ->
  exists k, DatastoreBlocklist.cidToKey C id = Ok k /\
            KV.Has d (DatastoreBlocklist.safemodestore ++ k) = Ok b.
Proof.
  unfold DatastoreBlocklist.Contains.
  destruct (negb (Defined id)); [discriminate|].
  destruct (DatastoreBlocklist.cidToKey C id) as [k| |]; cbn;
    try discriminate.
  intro H. now exists k.
Qed.

Lemma KV_Has_ok_Put (d : KV.Store) (k k' v : string) (b : bool) :
  KV.Has d k = Ok b ->
  KV.Put d k' v = Ok (KV.mkStore ((k', v) :: KV.remove k' (KV.entries d))
                                 (KV.fault d)).
Proof.
  unfold KV.Has, KV.Put, KV.guard. now destruct (KV.fault d).
Qed.

Lemma SQL_Count_ok_CreateItem (db : SQL.DB) (h0 h c r u : string) (n : Z) :
  SQL.Count db h0 = Ok n ->
  SQL.CreateItem db h c r u
  = Ok (SQL.mkDB (SQL.blocklist db ++
                    [mkPgBlocklistItem (mkModel (SQL.nextID db) None) h c r u])
                 (SQL.auditlog db) (SQL.nextID db + 1) (SQL.now db)
                 (SQL.fault db)).
Proof.
  unfold SQL.Count, SQL.CreateItem, SQL.guard. now destruct (SQL.fault db).
Qed.

Lemma Pg_Contains_count (C : Collab) (db : SQL.DB) (id : Cid) (b : bool) :
  PgBlocklist.Contains C db id = Ok b ->
  exists h n, SQL.Count db h = Ok n /\ b = (0 <? n).
Proof.
  unfold PgBlocklist.Contains.
  destruct (if Version id =? 0 then _ else _) as [h| |]; cbn;
    try discriminate.
  destruct (SQL.Count db h) as [n| |] eqn:E; cbn; try discriminate.
  intros [= <-]. now exists h, n.
Qed.

(** C4.  The boolean of [Block] has opposite meanings in the two backends.
    When the entry is already there, the relational backend returns [true]
    and the key-value backend returns [false], neither changing the store;
    when the entry is created, the relational backend returns [false] and the
    key-value backend returns [true]. *)
Theorem C4_Block_polarity_differs (C : Collab) :
  (forall (db : SQL.DB) (id : Cid) (data : BlockData),
      PgBlocklist.Contains C db id = Ok true ->
      PgBlocklist.Block C db id data = (db, Ok true)) /\
  (forall (d : KV.Store) (id : Cid) (data : BlockData),
      DatastoreBlocklist.Contains C d id = Ok true ->
      DatastoreBlocklist.Block C d id data = (d, Ok false)) /\
  (forall (db : SQL.DB) (id : Cid) (data : BlockData),
      PgBlocklist.Contains C db id = Ok false ->
      snd (PgBlocklist.Block C db id data) = Ok false) /\
  (forall (d : KV.Store) (id : Cid) (data : BlockData) (raw : string),
      DatastoreBlocklist.Contains C d id = Ok false ->
      BlocklistItem_MarshalBinary C (mkBlocklistItem (cid_String C id) (dContent data)
                                           (dReason data) (dUser data))
        = Ok raw ->
      snd (DatastoreBlocklist.Block C d id data) = Ok true).
Proof.
  repeat split.
  - intros db id data H. unfold PgBlocklist.Block. now rewrite H.
  - intros d id data H. unfold DatastoreBlocklist.Block.
    destruct (DS_Contains_key _ _ _ H) as (k & -> & _). now rewrite H.
  - intros db id data H. unfold PgBlocklist.Block. rewrite H.
    destruct (Pg_Contains_count _ _ _ H) as (h & n & Hn & _).
    now erewrite SQL_Count_ok_CreateItem by exact Hn.
  - intros d id data raw H Hraw. unfold DatastoreBlocklist.Block.
    destruct (DS_Contains_key _ _ _ H) as (k & -> & Hhas).
    rewrite H, Hraw. now erewrite KV_Has_ok_Put by exact Hhas.
Qed.

Lemma C4_Block_polarity_differs_witness :
  let db := fst (PgBlocklist.Block Ref.collab SQL.empty cidB alice) in
  let d := fst (DatastoreBlocklist.Block Ref.collab KV.empty cidB alice) in
  PgBlocklist.Block Ref.collab db cidB bob = (db, Ok true) /\
  DatastoreBlocklist.Block Ref.collab d cidB bob = (d, Ok false) /\
  snd (PgBlocklist.Block Ref.collab SQL.empty cidB alice) = Ok false /\
  snd (DatastoreBlocklist.Block Ref.collab KV.empty cidB alice) = Ok true.
Proof.
  intros db d.
  destruct (C4_Block_polarity_differs Ref.collab) as (P1 & D1 & P0 & D0).
  split; [|split; [|split]].
  - apply P1. reflexivity.
  - apply D1. reflexivity.
  - apply P0. reflexivity.
  - apply (D0 KV.empty cidB alice
              (Ref.write_item
                 (mkBlocklistItem "b112:58" ["https://example.com/x"] "DMCA"
                                  "alice@example.com")));
      reflexivity.
Defined.


(** ** Legacy and current CIDs of one multihash *)

Section SameMultihash.

Variable C : Collab.
Variable h : Multihash.

(** The textual form of a version-0 CID is the base-58 form of its
    multihash. *)
Hypothesis b58_of_v0 : FromB58String C (cid_String C (CidV0 h)) = Ok h.

Lemma DS_cidToKey_v0 :
  DatastoreBlocklist.cidToKey C (CidV0 h)
  = DatastoreBlocklist.cidToKey C (CidV1 DagProtobuf h).
Proof.
  unfold DatastoreBlocklist.cidToKey. cbn. now rewrite b58_of_v0.
Qed.

(** Both backends answer [Contains] alike for the two CIDs. *)
Lemma DS_Contains_v0_v1 (d : KV.Store) :
  DatastoreBlocklist.Contains C d (CidV0 h)
  = DatastoreBlocklist.Contains C d (CidV1 DagProtobuf h).
Proof.
  unfold DatastoreBlocklist.Contains. cbn [Defined negb].
  now rewrite DS_cidToKey_v0.
Qed.

Lemma Pg_Contains_v0_v1 (db : SQL.DB) :
  PgBlocklist.Contains C db (CidV0 h)
  = PgBlocklist.Contains C db (CidV1 DagProtobuf h).
Proof.
  unfold PgBlocklist.Contains. cbn. now rewrite b58_of_v0.
Qed.

End SameMultihash.

(** In the key-value backend a successful [Block] of a CID makes [Contains]
    true for every defined CID with the same key. *)
Lemma DS_Block_then_Contains
      (C : Collab) (d d' : KV.Store) (id id' : Cid) (data : BlockData)
      (r : bool) :
  DatastoreBlocklist.cidToKey C id' = DatastoreBlocklist.cidToKey C id ->
  Defined id' = true ->
  DatastoreBlocklist.Block C d id data = (d', Ok r) ->
  DatastoreBlocklist.Contains C d' id' = Ok true.
Proof.
  intros Hkey Hdef. unfold DatastoreBlocklist.Block.
  destruct (DatastoreBlocklist.cidToKey C id) as [k| |] eqn:Hk;
    try (intros [= _ ?]; discriminate).
  destruct (DatastoreBlocklist.Contains C d id) as [[|]| |] eqn:Hc;
    try (intros [= _ ?]; discriminate).
  - intros [= <- _].
    destruct (DS_Contains_key _ _ _ Hc) as (k0 & Hk0 & Hhas).
    assert (k0 = k) as -> by congruence.
    unfold DatastoreBlocklist.Contains. rewrite Hdef, Hkey. exact Hhas.
  - destruct (BlocklistItem_MarshalBinary C _) as [raw| |];
      try (intros [= _ ?]; discriminate).
    destruct (DS_Contains_key _ _ _ Hc) as (k0 & Hk0 & Hhas).
    erewrite KV_Has_ok_Put by exact Hhas.
    intros [= <- _].
    unfold DatastoreBlocklist.Contains. rewrite Hdef, Hkey. cbn.
    unfold KV.Has, KV.guard in *. cbn.
    destruct (KV.fault d); [discriminate|].
    now rewrite String.eqb_refl.
Qed.

Lemma where_hash_other (q hash c r u : string) (m : Model) :
  q <> EmptyString -> hash <> q ->
  SQL.where_hash q (mkPgBlocklistItem m hash c r u) = false.
Proof.
  intros Hq Hne. unfold SQL.where_hash. cbn.
  apply String.eqb_neq in Hq. apply String.eqb_neq in Hne.
  now rewrite Hq, Hne.
Qed.

(** A new row under another hash does not change the count for [q]. *)
Lemma SQL_Count_after_other (db : SQL.DB) (q : string) (row : PgBlocklistItem)
      (n : Z) (now : Time) :
  SQL.where_hash q row = false ->
  SQL.Count (SQL.mkDB (SQL.blocklist db ++ [row]) (SQL.auditlog db) n now
                      (SQL.fault db)) q
  = SQL.Count db q.
Proof.
  intro Hrow. unfold SQL.Count, SQL.guard. cbn.
  rewrite filter_app. cbn. rewrite Hrow, app_nil_r. reflexivity.
Qed.

(** What [Block] of a version-0 CID does in the relational backend when
    the version-1 text is not in the table: it inserts a row under the
    version-0 text, and the version-1 text is still not in the table. *)
Lemma Pg_Block_v0_inserts
      (C : Collab) (h : Multihash) (db : SQL.DB) (data : BlockData) :
  FromB58String C (cid_String C (CidV0 h)) = Ok h ->
  cid_String C (CidV1 DagProtobuf h) <> EmptyString ->
  cid_String C (CidV0 h) <> cid_String C (CidV1 DagProtobuf h) ->
  PgBlocklist.Contains C db (CidV1 DagProtobuf h) = Ok false ->
  PgBlocklist.Block C db (CidV0 h) data
    = (pg_inserted C db (CidV0 h) data, Ok false) /\
  PgBlocklist.Contains C (pg_inserted C db (CidV0 h) data)
                       (CidV1 DagProtobuf h) = Ok false.
Proof.
  intros Hb58 Hne Hdiff Hc. split.
  - unfold PgBlocklist.Block.
    rewrite Pg_Contains_v0_v1 by exact Hb58. rewrite Hc.
    destruct (Pg_Contains_count _ _ _ Hc) as (q & n & Hn & _).
    now erewrite SQL_Count_ok_CreateItem by exact Hn.
  - unfold PgBlocklist.Contains, pg_inserted in *. cbn in *.
    rewrite SQL_Count_after_other; [exact Hc|].
    now apply where_hash_other.
Qed.

(** C1.  In the relational backend a version-0 CID that has just been
    blocked is not seen by [Contains], under either of its two forms:
    [Block] stores the row under the CID's own text, while [Contains] counts
    the rows under the text of the version-1 form.  Here [h] is the
    multihash, [CidV0 h] the legacy CID and [CidV1 DagProtobuf h] the current
    one; the two texts differ. *)
Theorem C1_Pg_Block_keeps_legacy_text
        (C : Collab) (h : Multihash) (db : SQL.DB) (data : BlockData) :
  FromB58String C (cid_String C (CidV0 h)) = Ok h ->
  cid_String C (CidV1 DagProtobuf h) <> EmptyString ->
  cid_String C (CidV0 h) <> cid_String C (CidV1 DagProtobuf h) ->
  PgBlocklist.Contains C db (CidV1 DagProtobuf h) = Ok false ->
  exists db' : SQL.DB,
    PgBlocklist.Block C db (CidV0 h) data = (db', Ok false) /\
    PgBlocklist.Contains C db' (CidV1 DagProtobuf h) = Ok false /\
    PgBlocklist.Contains C db' (CidV0 h) = Ok false.
Proof.
  intros Hb58 Hne Hdiff Hc.
  destruct (@Pg_Block_v0_inserts C h db data Hb58 Hne Hdiff Hc)
    as [Hblock Hb].
  exists (pg_inserted C db (CidV0 h) data).
  split; [exact Hblock|]. split; [exact Hb|].
  now rewrite Pg_Contains_v0_v1.
Qed.

Lemma C1_Pg_Block_keeps_legacy_text_witness :
  exists db' : SQL.DB,
    PgBlocklist.Block Ref.collab SQL.empty cidA alice = (db', Ok false) /\
    PgBlocklist.Contains Ref.collab db' cidB = Ok false /\
    PgBlocklist.Contains Ref.collab db' cidA = Ok false.
Proof.
  apply (@C1_Pg_Block_keeps_legacy_text Ref.collab hashX SQL.empty alice).
  - reflexivity.
  - discriminate.
  - discriminate.
  - reflexivity.
Defined.


(** ** Blocking twice *)

Lemma DS_Block_existing
      (C : Collab) (d : KV.Store) (id : Cid) (data : BlockData) :
  DatastoreBlocklist.Contains C d id = Ok true ->
  DatastoreBlocklist.Block C d id data = (d, Ok false).
Proof.
  intro H. unfold DatastoreBlocklist.Block.
  destruct (DS_Contains_key _ _ _ H) as (k & -> & _). now rewrite H.
Qed.

(** The key-value backend: the first [Block] writes the encoded item, the
    second changes nothing, and [Search] then decodes what the first one
    wrote. *)
Lemma DS_Block_twice
      (C : Collab) (d : KV.Store) (id : Cid) (data data2 : BlockData)
      (raw : string) :
  DatastoreBlocklist.Contains C d id = Ok false ->
  BlocklistItem_MarshalBinary C (mkBlocklistItem (cid_String C id) (dContent data)
                                       (dReason data) (dUser data)) = Ok raw ->
  exists d1 : KV.Store,
    DatastoreBlocklist.Block C d id data = (d1, Ok true) /\
    DatastoreBlocklist.Block C d1 id data2 = (d1, Ok false) /\
    DatastoreBlocklist.Search C d1 id = BlocklistItem_UnmarshalBinary C zeroItem raw.
Proof.
  intros Hc Hraw.
  destruct (DS_Contains_key _ _ _ Hc) as (k & Hk & Hhas).
  assert (Hdef : Defined id = true).
  { unfold DatastoreBlocklist.Contains in Hc.
    destruct (Defined id); [reflexivity | discriminate]. }
  assert (Hblock : DatastoreBlocklist.Block C d id data
                   = (KV.mkStore ((DatastoreBlocklist.safemodestore ++ k, raw)
                                    :: KV.remove (DatastoreBlocklist.safemodestore ++ k)
                                                 (KV.entries d))
                                 (KV.fault d), Ok true)).
  { unfold DatastoreBlocklist.Block. rewrite Hk, Hc, Hraw.
    now erewrite KV_Has_ok_Put by exact Hhas. }
  eexists. split; [exact Hblock|]. split.
  - apply DS_Block_existing.
    eapply DS_Block_then_Contains; [reflexivity | exact Hdef | exact Hblock].
  - unfold DatastoreBlocklist.Search. rewrite Hk. cbn.
    unfold KV.Has, KV.Get, KV.guard in *. cbn.
    destruct (KV.fault d); [discriminate|].
    now rewrite String.eqb_refl.
Qed.

Lemma where_hash_same (q c r u : string) (n : Z) :
  SQL.where_hash q (mkPgBlocklistItem (mkModel n None) q c r u) = true.
Proof.
  unfold SQL.where_hash. cbn. rewrite String.eqb_refl.
  now destruct (String.eqb q EmptyString).
Qed.

Lemma SQL_Count_after_same (C : Collab) (db : SQL.DB) (id : Cid)
      (data : BlockData) (n : Z) :
  SQL.Count db (cid_String C id) = Ok n ->
  SQL.Count (pg_inserted C db id data) (cid_String C id) = Ok (n + 1).
Proof.
  unfold SQL.Count, SQL.guard, pg_inserted. cbn [SQL.fault SQL.blocklist].
  destruct (SQL.fault db); [discriminate|].
  intros [= <-]. rewrite filter_app. cbn [filter].
  rewrite where_hash_same, length_app. cbn [List.length].
  f_equal. lia.
Qed.

(** C2.  In the relational backend two [Block]s of one version-0 CID insert
    two rows: [Contains] looks for the version-1 text, [Block] inserts under
    the version-0 text, so the second call does not see the row of the first,
    inserts again and reports the entry as new. *)
Theorem C2_Pg_Block_twice_inserts_twice
        (C : Collab) (h : Multihash) (db : SQL.DB) (data data2 : BlockData) :
  FromB58String C (cid_String C (CidV0 h)) = Ok h ->
  cid_String C (CidV1 DagProtobuf h) <> EmptyString ->
  cid_String C (CidV0 h) <> cid_String C (CidV1 DagProtobuf h) ->
  PgBlocklist.Contains C db (CidV1 DagProtobuf h) = Ok false ->
  let db1 := pg_inserted C db (CidV0 h) data in
  let db2 := pg_inserted C db1 (CidV0 h) data2 in
  PgBlocklist.Block C db (CidV0 h) data = (db1, Ok false) /\
  PgBlocklist.Block C db1 (CidV0 h) data2 = (db2, Ok false) /\
  forall n : Z,
    SQL.Count db (cid_String C (CidV0 h)) = Ok n ->
    SQL.Count db2 (cid_String C (CidV0 h)) = Ok (n + 2).
Proof.
  intros Hb58 Hne Hdiff Hc db1 db2.
  destruct (@Pg_Block_v0_inserts C h db data Hb58 Hne Hdiff Hc) as [H1 Hc1].
  destruct (@Pg_Block_v0_inserts C h db1 data2 Hb58 Hne Hdiff Hc1) as [H2 _].
  split; [exact H1|]. split; [exact H2|].
  intros n Hn. subst db1 db2.
  replace (n + 2) with (n + 1 + 1) by lia.
  now do 2 apply SQL_Count_after_same.
Qed.

Lemma C2_Pg_Block_twice_inserts_twice_witness :
  let db1 := pg_inserted Ref.collab SQL.empty cidA alice in
  let db2 := pg_inserted Ref.collab db1 cidA bob in
  PgBlocklist.Block Ref.collab SQL.empty cidA alice = (db1, Ok false) /\
  PgBlocklist.Block Ref.collab db1 cidA bob = (db2, Ok false) /\
  forall n : Z,
    SQL.Count SQL.empty "Qm58" = Ok n -> SQL.Count db2 "Qm58" = Ok (n + 2).
Proof.
  apply (@C2_Pg_Block_twice_inserts_twice Ref.collab hashX SQL.empty
           alice bob).
  - reflexivity.
  - discriminate.
  - discriminate.
  - reflexivity.
Defined.

(** The content of a relational row is the lines joined by a newline, so an
    item blocked with no content line is found with one empty line. *)
Example Pg_Content_of_none :
  Go.Split (Go.Join [] PgBlocklist.newline) (ascii_of_nat 10) = [EmptyString].
Proof. reflexivity. Qed.


(** ** Block, unblock, block again *)

Lemma Pg_Contains_current (C : Collab) (db : SQL.DB) (id : Cid) :
  Version id <> 0 ->
  PgBlocklist.Contains C db id
  = (count <- SQL.Count db (cid_String C id) ;; Ok (0 <? count)).
Proof.
  intro Hv. apply Z.eqb_neq in Hv. unfold PgBlocklist.Contains.
  now rewrite Hv.
Qed.







(** ** Reading the audit log *)






Lemma decode_all_spec (C : Collab) (rr : list (string * string))
      (acc acts : list Action) :
  DatastoreBlocklist.decode_all C rr acc = Ok acts ->
  exists tail, acts = (acc ++ tail)%list /\ decoded C rr tail.
Proof.
  revert acc. induction rr as [|res rr IH]; intro acc; cbn.
  - intros [= <-]. exists []. split; [now rewrite app_nil_r | constructor].
  - destruct (Action_UnmarshalBinary C zeroAction (snd res)) as [l| |] eqn:E;
      cbn; try discriminate.
    intro H. destruct (IH _ H) as (tail & -> & Hdec).
    exists (l :: tail). split; [now rewrite <- app_assoc|].
    now constructor.
Qed.









(** ** JSON strings read back *)

Module RefFacts.
Import Ref.
Local Unset Implicit Arguments.

Lemma append_assoc (a b c : string) : ((a ++ b) ++ c)%string = (a ++ (b ++ c))%string.
Proof. induction a as [|x a IH]; cbn; [reflexivity | now rewrite IH]. Qed.

Lemma chr_byte (c : ascii) : chr (byte c) = c.
Proof. unfold chr, byte. now rewrite N2Z.id, ascii_N_embedding. Qed.

Lemma byte_eq (c : ascii) (n : Z) : byte c = n -> c = chr n.
Proof. intros <-. symmetry. apply chr_byte. Qed.

(** Boolean tests on bytes, as arithmetic. *)
Ltac b2p H :=
  unfold valid2, valid3, valid4, line_sep, cont, between in H;
  repeat rewrite ?andb_true_iff, ?orb_true_iff, ?Z.leb_le, ?Z.eqb_eq,
    ?Z.ltb_lt, ?Z.ltb_ge, ?Z.eqb_neq in H.

Ltac is_false := apply not_true_is_false; let H := fresh in intro H; b2p H.

Lemma read_escape_char (c : ascii) (t : string) :
  (byte c <? 128) = true ->
  read_chars (escape_char c ++ t) = prepend (String c EmptyString) (read_chars t).
Proof.
  destruct c as [[] [] [] [] [] [] [] []]; intro H; cbv in H;
    try discriminate H; reflexivity.
Qed.

(** The guards of [read_chars] on a byte of 128 or more. *)
Lemma read_chars_high (c : ascii) (r : string) :
  (byte c <? 128) = false ->
  read_chars (String c r)
  = match r with
    | String b1 r1 =>
        if valid2 c b1
        then prepend (String c (String b1 EmptyString)) (read_chars r1)
        else
          match r1 with
          | String b2 r2 =>
              if valid3 c b1 b2
              then prepend (String c (String b1 (String b2 EmptyString)))
                           (read_chars r2)
              else
                match r2 with
                | String b3 r3 =>
                    if valid4 c b1 b2 b3
                    then prepend (String c (String b1 (String b2
                                    (String b3 EmptyString))))
                                 (read_chars r3)
                    else prepend (utf8_encode 65533) (read_chars r)
                | EmptyString => prepend (utf8_encode 65533) (read_chars r)
                end
          | EmptyString => prepend (utf8_encode 65533) (read_chars r)
          end
    | EmptyString => prepend (utf8_encode 65533) (read_chars r)
    end.
Proof.
  intro H. cbn [read_chars]. rewrite H.
  apply Z.ltb_ge in H.
  replace (byte c =? 34) with false by (symmetry; apply Z.eqb_neq; lia).
  replace (byte c =? 92) with false by (symmetry; apply Z.eqb_neq; lia).
  replace (byte c <? 32) with false by (symmetry; apply Z.ltb_ge; lia).
  reflexivity.
Qed.

Lemma valid3_not2 (b0 b1 b2 : ascii) :
  valid3 b0 b1 b2 = true -> valid2 b0 b1 = false.
Proof. intro H. b2p H. is_false. lia. Qed.

Lemma valid4_not2 (b0 b1 b2 b3 : ascii) :
  valid4 b0 b1 b2 b3 = true -> valid2 b0 b1 = false.
Proof. intro H. b2p H. is_false. lia. Qed.

Lemma valid4_not3 (b0 b1 b2 b3 : ascii) :
  valid4 b0 b1 b2 b3 = true -> valid3 b0 b1 b2 = false.
Proof. intro H. b2p H. is_false. lia. Qed.

(** The escapes of U+2028 and U+2029 read back as their three bytes. *)
Lemma read_line_sep (b0 b1 b2 : ascii) (t : string) :
  line_sep b0 b1 b2 = true ->
  read_chars (("\u202" ++ String (hexdigit (byte b2 - 160)) EmptyString) ++ t)
  = prepend (String b0 (String b1 (String b2 EmptyString))) (read_chars t).
Proof.
  intro H. b2p H. destruct H as [[H0 H1] H2].
  apply byte_eq in H0. apply byte_eq in H1. subst b0 b1.
  assert (byte b2 = 168 \/ byte b2 = 169) as [H|H] by lia;
    apply byte_eq in H; subst b2; reflexivity.
Qed.

(** A valid string, escaped and closed by a quote, reads back as itself. *)
Lemma read_escape_bounded (n : nat) :
  forall (s rest : string),
    (String.length s <= n)%nat ->
    valid_utf8 s = true ->
    read_chars (escape s ++ String dq rest) = Some (s, rest).
Proof.
  induction n as [|n IH]; intros s rest Hlen Hv.
  - destruct s; [reflexivity | cbn in Hlen; lia].
  - destruct s as [|b0 r0]; [reflexivity|].
    cbn [valid_utf8 escape String.length] in *.
    destruct (byte b0 <? 128) eqn:E0.
    { rewrite append_assoc, read_escape_char by exact E0.
      rewrite IH; [reflexivity | lia | exact Hv]. }
    destruct r0 as [|b1 r1]; [discriminate|].
    cbn [String.length] in Hlen.
    destruct (valid2 b0 b1) eqn:E2.
    { cbn [append]. rewrite read_chars_high by exact E0. rewrite E2.
      rewrite IH; [reflexivity | lia | exact Hv]. }
    destruct r1 as [|b2 r2]; [discriminate|].
    cbn [String.length] in Hlen.
    destruct (valid3 b0 b1 b2) eqn:E3.
    { destruct (line_sep b0 b1 b2) eqn:EL.
      - change (read_chars
                  (("\u202" ++ String (hexdigit (byte b2 - 160)) EmptyString)
                     ++ (escape r2 ++ String dq rest))
                = Some (String b0 (String b1 (String b2 r2)), rest)).
        rewrite (@read_line_sep b0 b1 b2 _ EL).
        rewrite IH; [reflexivity | lia | exact Hv].
      - cbn [append]. rewrite read_chars_high by exact E0. rewrite E2, E3.
        rewrite IH; [reflexivity | lia | exact Hv]. }
    destruct r2 as [|b3 r3]; [discriminate|].
    cbn [String.length] in Hlen.
    destruct (valid4 b0 b1 b2 b3) eqn:E4; [|discriminate].
    cbn [append]. rewrite read_chars_high by exact E0. rewrite E2, E3, E4.
    rewrite IH; [reflexivity | lia | exact Hv].
Qed.

Lemma read_escape (s rest : string) :
  valid_utf8 s = true ->
  read_chars (escape s ++ String dq rest) = Some (s, rest).
Proof.
  intro H. now apply (@read_escape_bounded (String.length s) s rest).
Qed.

Lemma read_quote (s rest : string) :
  valid_utf8 s = true ->
  read_string (quote s ++ rest) = Some (s, rest).
Proof.
  intro H. unfold quote, quote_mark. rewrite !append_assoc. cbn.
  now apply read_escape.
Qed.

Lemma lit_append (p s : string) : lit p (p ++ s) = Some s.
Proof.
  induction p as [|c p IH]; cbn; [now destruct s|].
  now rewrite Ascii.eqb_refl.
Qed.

Lemma length_append (a b : string) :
  String.length (a ++ b) = (String.length a + String.length b)%nat.
Proof. induction a as [|c a IH]; cbn; [reflexivity | now rewrite IH]. Qed.

(** ** JSON arrays read back *)

Section Arrays.

Variable A : Type.
Variable wr : A -> string.
Variable rd : string -> option (A * string).
Variable good : A -> bool.

Hypothesis rd_wr :
  forall (x : A) (rest : string), good x = true -> rd (wr x ++ rest) = Some (x, rest).
Hypothesis wr_not_empty : forall x : A, (1 <= String.length (wr x))%nat.
Hypothesis wr_head :
  forall x : A, good x = true ->
    exists (c : ascii) (r : string), wr x = String c r /\ c <> "]"%char.

Lemma write_items_length (l : list A) :
  (List.length l <= String.length (write_items wr l))%nat.
Proof.
  induction l as [|x [|y t] IH]; cbn [write_items List.length] in *.
  - cbn. lia.
  - pose proof (wr_not_empty x). lia.
  - rewrite !length_append. pose proof (wr_not_empty x). cbn [String.length].
    lia.
Qed.

Lemma read_items_write (l : list A) :
  forall (fuel : nat) (rest : string),
    l <> [] ->
    (List.length l <= fuel)%nat ->
    forallb good l = true ->
    read_items rd fuel (write_items wr l ++ String "]" rest) = Some (l, rest).
Proof.
  induction l as [|x [|y t] IH]; intros fuel rest Hne Hfuel Hgood.
  - contradiction.
  - destruct fuel as [|fuel]; [cbn in Hfuel; lia|].
    cbn in Hgood. rewrite andb_true_r in Hgood.
    cbn [write_items read_items]. now rewrite rd_wr.
  - destruct fuel as [|fuel]; [cbn in Hfuel; lia|].
    cbn [forallb] in Hgood. apply andb_prop in Hgood as [Hx Hrest].
    cbn [write_items read_items].
    rewrite !append_assoc. rewrite rd_wr by exact Hx.
    cbn [append]. rewrite IH; [reflexivity | discriminate | | exact Hrest].
    cbn [List.length] in *. lia.
Qed.

Lemma read_array_open (c : ascii) (r : string) :
  c <> "]"%char ->
  read_array rd (String "[" (String c r))
  = read_items rd (S (String.length (String c r))) (String c r).
Proof.
  intro Hc. unfold read_array.
  destruct c as [[] [] [] [] [] [] [] []]; try reflexivity.
  now elim Hc.
Qed.

Lemma read_array_write (l : list A) (rest : string) :
  forallb good l = true ->
  read_array rd (write_array wr l ++ rest) = Some (l, rest).
Proof.
  intro Hgood. destruct l as [|x t]; [reflexivity|].
  unfold write_array. rewrite append_assoc. cbn [append].
  assert (Hx : good x = true) by (cbn in Hgood; now apply andb_prop in Hgood).
  destruct (wr_head x Hx) as (c & r & Hwr & Hc).
  assert (Hhead : exists r', (write_items wr (x :: t) ++ String "]" rest)%string
                             = String c r').
  { destruct t as [|y t]; cbn [write_items]; rewrite Hwr; cbn [append];
      eexists; reflexivity. }
  destruct Hhead as (r' & E).
  rewrite append_assoc. cbn [append]. rewrite E.
  rewrite read_array_open by exact Hc. rewrite <- E.
  apply read_items_write; [discriminate | | exact Hgood].
  rewrite length_append. pose proof (write_items_length (x :: t)). lia.
Qed.

End Arrays.

(** ** [BlocklistItem] read back *)

Lemma lit_append2 (a b s : string) : lit (a ++ b) (a ++ b ++ s) = Some s.
Proof. rewrite <- append_assoc. apply lit_append. Qed.

Lemma quote_head (x : string) :
  exists (c : ascii) (r : string), quote x = String c r /\ c <> "]"%char.
Proof.
  unfold quote, quote_mark. cbn [append].
  eexists. eexists. split; [reflexivity | discriminate].
Qed.

Lemma read_strings (l : list string) (rest : string) :
  forallb valid_utf8 l = true ->
  read_array read_string (write_array quote l ++ rest) = Some (l, rest).
Proof.
  apply read_array_write with (good := valid_utf8).
  - intros x r Hx. now apply read_quote.
  - intro x. unfold quote, quote_mark. cbn. lia.
  - intros x _. apply quote_head.
Qed.

Lemma read_write_item (b : BlocklistItem) :
  utf8_item b = true -> read_item (write_item b) = Some b.
Proof.
  destruct b as [h c r u]. unfold utf8_item. cbn [Hash Content Reason User].
  intro H. apply andb_prop in H as [H Hu]. apply andb_prop in H as [H Hr].
  apply andb_prop in H as [Hh Hc].
  unfold read_item, write_item. cbn [Hash Content Reason User].
  rewrite lit_append2. cbn [obind].
  rewrite read_quote by exact Hh. cbn [obind].
  rewrite lit_append2. cbn [obind].
  rewrite read_strings by exact Hc. cbn [obind].
  rewrite lit_append2. cbn [obind].
  rewrite read_quote by exact Hr. cbn [obind].
  rewrite lit_append2. cbn [obind].
  rewrite read_quote by exact Hu. cbn [obind].
  reflexivity.
Qed.

(** ** [Action] read back *)

Lemma Cid_eqb_eq (a b : Cid) : Cid_eqb a b = true -> a = b.
Proof.
  destruct a as [|h|c h], b as [|k|d k]; cbn; try discriminate.
  - reflexivity.
  - intro H. apply String.eqb_eq in H. now subst.
  - intro H. apply andb_prop in H as [Hc Hh].
    apply N.eqb_eq in Hc. apply String.eqb_eq in Hh. now subst.
Qed.

Lemma read_write_cid (c : Cid) (rest : string) :
  cid_reads_back c = true -> read_cid (write_cid c ++ rest) = Some (c, rest).
Proof.
  unfold cid_reads_back, write_cid. destruct (Defined c) eqn:Hd; cbn [negb orb].
  - intro H. apply andb_prop in H as [Hv Hp].
    unfold read_cid. rewrite !append_assoc. cbn [append lit].
    rewrite Ascii.eqb_refl, lit_append. cbn [obind].
    rewrite read_quote by exact Hv. cbn [obind append lit].
    rewrite Ascii.eqb_refl. cbn [obind].
    destruct (cid_Parse (cid_String c)) as [c'| |]; try discriminate.
    now rewrite (Cid_eqb_eq _ _ Hp).
  - intros _. destruct c; [reflexivity | discriminate | discriminate].
Qed.

Lemma write_cid_head (c : Cid) :
  exists (h : ascii) (r : string), write_cid c = String h r /\ h <> "]"%char.
Proof.
  unfold write_cid. destruct (Defined c); cbn [append];
    eexists; eexists; (split; [reflexivity | discriminate]).
Qed.

Lemma read_cids (l : list Cid) (rest : string) :
  forallb cid_reads_back l = true ->
  read_array read_cid (write_array write_cid l ++ rest) = Some (l, rest).
Proof.
  apply read_array_write with (good := cid_reads_back).
  - intros x r Hx. now apply read_write_cid.
  - intro x. destruct (write_cid_head x) as (h & r & -> & _). cbn. lia.
  - intros x _. apply write_cid_head.
Qed.

Lemma lit_append3 (a b c s : string) :
  lit (a ++ b ++ c) (a ++ b ++ c ++ s) = Some s.
Proof. rewrite <- !append_assoc. apply lit_append. Qed.

(** ** The text of a CID read back *)

Lemma hex_byte (c : ascii) :
  hexval (hexdigit (byte c / 16)) = Some (byte c / 16) /\
  hexval (hexdigit (byte c mod 16)) = Some (byte c mod 16) /\
  chr (16 * (byte c / 16) + byte c mod 16) = c /\
  (byte (hexdigit (byte c / 16)) <? 128) = true /\
  (byte (hexdigit (byte c mod 16)) <? 128) = true.
Proof.
  destruct c as [[] [] [] [] [] [] [] []]; repeat split; vm_compute;
    reflexivity.
Qed.

Lemma unhex_hex (h : string) : unhex (hex h) = Some h.
Proof.
  induction h as [|c h IH]; [reflexivity|].
  cbn [hex unhex]. destruct (hex_byte c) as (-> & -> & Hc & _).
  now rewrite IH, Hc.
Qed.

Lemma plain_hex (h : string) : plain (hex h) = true.
Proof.
  induction h as [|c h IH]; [reflexivity|].
  cbn [hex plain]. destruct (hex_byte c) as (_ & _ & _ & -> & ->).
  exact IH.
Qed.

Lemma plain_append (a b : string) :
  plain a = true -> plain b = true -> plain (a ++ b) = true.
Proof.
  induction a as [|c a IH]; cbn; [trivial|].
  intros H Hb. apply andb_prop in H as [-> Ha]. now apply IH.
Qed.

Lemma plain_valid (s : string) : plain s = true -> valid_utf8 s = true.
Proof.
  induction s as [|c s IH]; cbn [plain valid_utf8]; [trivial|].
  intro H. apply andb_prop in H as [-> Hs]. now apply IH.
Qed.

Lemma plain_digits (u : Decimal.uint) :
  plain (NilEmpty.string_of_uint u) = true.
Proof. induction u; cbn [NilEmpty.string_of_uint plain]; trivial. Qed.

Lemma plain_decimal (n : N) : plain (decimal n) = true.
Proof.
  unfold decimal, NilZero.string_of_uint.
  destruct (N.to_uint n); try apply plain_digits. reflexivity.
Qed.

Lemma cut_digits (u : Decimal.uint) (r : string) :
  cut ":" (NilEmpty.string_of_uint u ++ String ":" r)
  = Some (NilEmpty.string_of_uint u, r).
Proof.
  induction u; cbn [NilEmpty.string_of_uint append cut]; try reflexivity;
    cbn [Ascii.eqb Bool.eqb]; now rewrite IHu.
Qed.

Lemma cut_decimal (n : N) (r : string) :
  cut ":" (decimal n ++ String ":" r) = Some (decimal n, r).
Proof.
  unfold decimal, NilZero.string_of_uint.
  destruct (N.to_uint n) eqn:E; try (rewrite <- E; apply cut_digits).
  reflexivity.
Qed.

Lemma Cid_eqb_refl (c : Cid) : Cid_eqb c c = true.
Proof.
  destruct c as [|h|n h]; cbn; [reflexivity | apply String.eqb_refl |].
  now rewrite N.eqb_refl, String.eqb_refl.
Qed.

Lemma to_uint_not_nil (n : N) : N.to_uint n <> Decimal.Nil.
Proof.
  destruct n as [|p]; cbn; [discriminate|].
  apply DecimalPos.Unsigned.to_uint_nonnil.
Qed.

(** Every CID reads back from its text. *)
Lemma cid_reads_back_all (c : Cid) : cid_reads_back c = true.
Proof.
  destruct c as [|h|n h]; unfold cid_reads_back; cbn [Defined negb orb].
  - reflexivity.
  - apply andb_true_intro. split.
    + apply plain_valid. cbn [cid_String]. apply plain_append;
        [reflexivity | apply plain_hex].
    + cbn. rewrite unhex_hex. apply Cid_eqb_refl.
  - apply andb_true_intro. split.
    + apply plain_valid. cbn [cid_String].
      repeat apply plain_append; try reflexivity;
        [apply plain_decimal | apply plain_hex].
    + cbn [cid_String append cid_Parse].
      rewrite cut_decimal. unfold decimal.
      rewrite NilZero.usu by apply to_uint_not_nil.
      rewrite unhex_hex, DecimalN.Unsigned.of_to. apply Cid_eqb_refl.
Qed.

(** ** The text of a time read back *)

Lemma digitval_digit (n : Z) : digitval (digit n) = Some (n mod 10).
Proof.
  unfold digit.
  assert (H : 0 <= n mod 10 < 10) by (apply Z.mod_pos_bound; lia).
  assert (n mod 10 = 0 \/ n mod 10 = 1 \/ n mod 10 = 2 \/ n mod 10 = 3 \/
          n mod 10 = 4 \/ n mod 10 = 5 \/ n mod 10 = 6 \/ n mod 10 = 7 \/
          n mod 10 = 8 \/ n mod 10 = 9) as E by lia.
  repeat (destruct E as [E|E]; [rewrite E; reflexivity|]).
  rewrite E. reflexivity.
Qed.

Lemma digits_pad2 (n acc : Z) (r : string) :
  digits 2 acc (pad2 n ++ r)
  = Some (10 * (10 * acc + (n / 10) mod 10) + n mod 10, r).
Proof.
  unfold pad2. cbn [append digits]. now rewrite !digitval_digit.
Qed.

Lemma digits_pad2_small (n : Z) (r : string) :
  0 <= n < 100 -> digits 2 0 (pad2 n ++ r) = Some (n, r).
Proof.
  intro H. rewrite digits_pad2. do 2 f_equal.
  Z.div_mod_to_equations. lia.
Qed.

Lemma digits_pad4 (y : Z) (r : string) :
  0 <= y <= 9999 -> digits 4 0 (pad4 y ++ r) = Some (y, r).
Proof.
  intro H. unfold pad4, pad2. rewrite !append_assoc.
  cbn [append digits]. rewrite !digitval_digit. do 2 f_equal.
  Z.div_mod_to_equations. lia.
Qed.

Lemma civil_from_days_spec (z : Z) :
  let '(y, m, d) := civil_from_days z in
  1 <= m <= 12 /\ 1 <= d <= 31 /\ days_from_civil y m d = z.
Proof.
  unfold civil_from_days, days_from_civil. cbv zeta.
  set (era := (z + 719468) / 146097).
  assert (Hz : z = era * 146097 + (z + 719468 - era * 146097) - 719468) by lia.
  set (doe := z + 719468 - era * 146097) in *.
  assert (Hdoe : 0 <= doe < 146097)
    by (subst doe era; Z.div_mod_to_equations; lia).
  clearbody doe. clearbody era.
  set (yoe := (doe - doe / 1460 + doe / 36524 - doe / 146096) / 365).
  assert (Hyoe : 0 <= yoe <= 399)
    by (subst yoe; Z.div_mod_to_equations; lia).
  set (doy := doe - (365 * yoe + yoe / 4 - yoe / 100)).
  assert (Hdoy : 0 <= doy <= 365)
    by (subst doy yoe; Z.div_mod_to_equations; lia).
  assert (Hdoe' : doe = yoe * 365 + yoe / 4 - yoe / 100 + doy)
    by (subst doy; lia).
  clearbody doy. clearbody yoe.
  set (mp := (5 * doy + 2) / 153).
  assert (Hmp : 0 <= mp <= 11) by (subst mp; Z.div_mod_to_equations; lia).
  set (d := doy - (153 * mp + 2) / 5 + 1).
  assert (Hd : 1 <= d <= 31) by (subst d mp; Z.div_mod_to_equations; lia).
  assert (Hdoy' : doy = (153 * mp + 2) / 5 + d - 1) by (subst d; lia).
  clearbody d. clearbody mp.
  destruct (Z.ltb_spec mp 10) as [Hlt|Hge].
  - replace (mp + 3 <=? 2) with false by (symmetry; apply Z.leb_gt; lia).
    replace (2 <? mp + 3) with true by (symmetry; apply Z.ltb_lt; lia).
    replace (mp + 3 - 3) with mp by lia.
    replace (yoe + era * 400 + 0) with (era * 400 + yoe) by lia.
    replace ((era * 400 + yoe) / 400) with era
      by (Z.div_mod_to_equations; lia).
    replace (era * 400 + yoe - era * 400) with yoe by lia.
    repeat split; lia.
  - replace (mp - 9 <=? 2) with true by (symmetry; apply Z.leb_le; lia).
    replace (2 <? mp - 9) with false by (symmetry; apply Z.ltb_ge; lia).
    replace (mp - 9 + 9) with mp by lia.
    replace (yoe + era * 400 + 1 - 1) with (era * 400 + yoe) by lia.
    replace ((era * 400 + yoe) / 400) with era
      by (Z.div_mod_to_equations; lia).
    replace (era * 400 + yoe - era * 400) with yoe by lia.
    repeat split; lia.
Qed.

Lemma digit_zero (d : Z) : Ascii.eqb (digit d) "0" = true -> d mod 10 = 0.
Proof.
  intro H. apply Ascii.eqb_eq in H.
  pose proof (digitval_digit d) as E. rewrite H in E.
  cbv in E. now injection E.
Qed.

Lemma trim0_nil (l : list Z) :
  trim0 (digit_string l) = EmptyString ->
  forall scale : Z, fraction_value scale l = 0.
Proof.
  induction l as [|d l IH]; cbn [digit_string trim0 fraction_value];
    [reflexivity|].
  destruct (trim0 (digit_string l)) eqn:E; [|discriminate].
  destruct (Ascii.eqb (digit d) "0") eqn:E0; [|discriminate].
  intros _ scale. rewrite (digit_zero d E0), (IH eq_refl). lia.
Qed.

Lemma read_fraction_stops (scale acc : Z) (z : string) :
  stops z -> read_fraction scale acc z = (acc, z).
Proof.
  destruct z as [|c z]; cbn; [reflexivity|]. now intros ->.
Qed.

Lemma read_fraction_digit (d scale acc : Z) (r : string) :
  read_fraction scale acc (String (digit d) r)
  = read_fraction (scale / 10) (acc + d mod 10 * scale) r.
Proof. cbn [read_fraction]. now rewrite digitval_digit. Qed.

(** Trailing zeros left out, the digits read back as their value. *)
Lemma read_fraction_trim0 (l : list Z) :
  forall (scale acc : Z) (z : string),
    stops z ->
    read_fraction scale acc (trim0 (digit_string l) ++ z)
    = (acc + fraction_value scale l, z).
Proof.
  induction l as [|d l IH]; intros scale acc z Hz;
    cbn [digit_string trim0 fraction_value].
  - cbn [append]. rewrite read_fraction_stops by exact Hz.
    f_equal. lia.
  - destruct (trim0 (digit_string l)) as [|c' r'] eqn:E.
    + rewrite (trim0_nil l E).
      destruct (Ascii.eqb (digit d) "0") eqn:E0.
      * cbn [append]. rewrite read_fraction_stops by exact Hz.
        rewrite (digit_zero d E0). f_equal. lia.
      * cbn [append]. rewrite read_fraction_digit.
        rewrite read_fraction_stops by exact Hz. f_equal. lia.
    + cbn [append]. rewrite read_fraction_digit.
      change (String c' (r' ++ z)) with (String c' r' ++ z)%string.
      rewrite (IH (scale / 10) (acc + d mod 10 * scale) z Hz).
      f_equal. lia.
Qed.

Lemma pad9_digits (n : Z) :
  pad9 n = digit_string [n / 10000000 / 10; n / 10000000; n / 100000 / 10;
                         n / 100000; n / 1000 / 10; n / 1000; n / 10 / 10;
                         n / 10; n].
Proof. reflexivity. Qed.

(** The fraction of a second that [Format_RFC3339Nano] writes, read the
    way [read_time] reads it. *)
Lemma read_fraction_text (n : Z) (z : string) :
  0 <= n < 1000000000 ->
  stops z ->
  (forall r, z <> String "." r) ->
  read_nanos (fraction n ++ z) = (n, z).
Proof.
  intros Hn Hz Hdot. unfold read_nanos, fraction.
  destruct (Z.eqb_spec n 0) as [->|Hne].
  - cbn [append]. destruct z as [|c z]; [reflexivity|].
    destruct c as [[] [] [] [] [] [] [] []]; try reflexivity.
    now elim (Hdot z).
  - cbn [append]. rewrite pad9_digits, read_fraction_trim0 by exact Hz.
    f_equal. cbn [fraction_value].
    change (100000000 / 10) with 10000000.
    change (10000000 / 10) with 1000000.
    change (1000000 / 10) with 100000.
    change (100000 / 10) with 10000.
    change (10000 / 10) with 1000.
    change (1000 / 10) with 100.
    change (100 / 10) with 10.
    change (10 / 10) with 1.
    Z.div_mod_to_equations. lia.
Qed.

Lemma stops_zone (off : Z) (rest : string) : stops (zone off ++ rest).
Proof. unfold zone. destruct (off =? 0), (off <? 0); reflexivity. Qed.

Lemma zone_not_dot (off : Z) (rest r : string) :
  (zone off ++ rest)%string <> String "." r.
Proof. unfold zone. destruct (off =? 0), (off <? 0); discriminate. Qed.

Lemma read_zone_text (off : Z) (rest : string) :
  off mod 60 = 0 -> Z.abs off < 86400 ->
  read_zone (zone off ++ rest) = Some (off, rest).
Proof.
  intros Hmod Habs. unfold zone.
  destruct (Z.eqb_spec off 0) as [->|Hne]; [reflexivity|].
  assert (Ha : 0 <= Z.abs off / 60 < 1440)
    by (Z.div_mod_to_equations; lia).
  destruct (Z.ltb_spec off 0) as [Hneg|Hpos];
    rewrite !append_assoc; cbn [append read_zone];
    rewrite digits_pad2_small by (Z.div_mod_to_equations; lia);
    cbn [obind lit]; rewrite Ascii.eqb_refl; cbn [obind lit];
    rewrite digits_pad2_small by (Z.div_mod_to_equations; lia);
    cbn [obind Ascii.eqb Bool.eqb]; do 2 f_equal;
    Z.div_mod_to_equations; lia.
Qed.

Ltac step_lit :=
  cbn [append lit obind]; rewrite ?Ascii.eqb_refl; cbn [lit obind].

(** A time that RFC 3339 can carry reads back from its text. *)
Lemma read_time_format (t : Time) (rest : string) :
  rfc3339_time t = true ->
  read_time (Format_RFC3339Nano t ++ rest) = Some (t, rest).
Proof.
  destruct t as [n off]. unfold rfc3339_time, year, Format_RFC3339Nano, datetime.
  cbn [unixNano zoneOffset].
  set (secs := n / 1000000000 + off).
  pose proof (civil_from_days_spec (secs / 86400)) as Hcivil.
  destruct (civil_from_days (secs / 86400)) as [[y m] d].
  cbn [fst]. destruct Hcivil as (Hm & Hd & Hdays).
  intro H. apply andb_prop in H as [H Habs]. apply andb_prop in H as [H Hmod].
  apply andb_prop in H as [Hy0 Hy1].
  apply Z.leb_le in Hy0, Hy1. apply Z.eqb_eq in Hmod. apply Z.ltb_lt in Habs.
  set (r := secs mod 86400).
  assert (Hr : 0 <= r < 86400) by (apply Z.mod_pos_bound; lia).
  rewrite !append_assoc. unfold read_time.
  rewrite digits_pad4 by lia. step_lit.
  rewrite digits_pad2_small by lia. step_lit.
  rewrite digits_pad2_small by lia. step_lit.
  rewrite digits_pad2_small by (Z.div_mod_to_equations; lia). step_lit.
  rewrite digits_pad2_small by (Z.div_mod_to_equations; lia). step_lit.
  rewrite digits_pad2_small by (Z.div_mod_to_equations; lia). cbn [obind].
  rewrite read_fraction_text;
    [ | apply Z.mod_pos_bound; lia | apply stops_zone | apply zone_not_dot ].
  rewrite read_zone_text by assumption. cbn [obind].
  do 3 f_equal. rewrite Hdays. subst r secs.
  Z.div_mod_to_equations. lia.
Qed.


(** An action of valid strings and a time RFC 3339 can carry reads back
    from its JSON. *)
Lemma read_write_action (a : Action) :
  utf8_action a = true ->
  rfc3339_time (CreatedAt a) = true ->
  read_action (write_action a) = Some a.
Proof.
  destruct a as [t ids r u at_]. unfold utf8_action.
  cbn [Typ Ids aReason aUser CreatedAt].
  intros H Hat. apply andb_prop in H as [H Hu]. apply andb_prop in H as [Ht Hr].
  assert (Hids : forallb cid_reads_back ids = true)
    by (apply forallb_forall; intros c _; apply cid_reads_back_all).
  unfold read_action, write_action. cbn [Typ Ids aReason aUser CreatedAt].
  rewrite lit_append2. cbn [obind].
  rewrite read_quote by exact Ht. cbn [obind].
  rewrite lit_append2. cbn [obind].
  rewrite read_cids by exact Hids. cbn [obind].
  rewrite lit_append2. cbn [obind].
  rewrite read_quote by exact Hr. cbn [obind].
  rewrite lit_append2. cbn [obind].
  rewrite read_quote by exact Hu. cbn [obind].
  rewrite lit_append3. cbn [obind].
  rewrite read_time_format by exact Hat. cbn [obind].
  rewrite lit_append. cbn [obind].
  reflexivity.
Qed.

End RefFacts.

(** ** The canonical encodings *)

(** C10, as amended.  With encoding/json as modelled by [Ref]: a
    [BlocklistItem] whose strings are valid UTF-8 is encoded, and decoding
    the bytes gives the item back, field for field; an [Action] whose strings
    are valid UTF-8 and whose creation time is one RFC 3339 can carry (year 0
    to 9999, zone offset of whole minutes and less than a day) is encoded,
    and decoding the bytes gives the action back. *)
Theorem C10_round_trip_of_valid_text :
  (forall b recv : BlocklistItem,
      Ref.utf8_item b = true ->
      exists raw : string,
        BlocklistItem_MarshalBinary Ref.collab b = Ok raw /\
        BlocklistItem_UnmarshalBinary Ref.collab recv raw = Ok b) /\
  (forall a recv : Action,
      Ref.utf8_action a = true ->
      Ref.rfc3339_time (CreatedAt a) = true ->
      exists raw : string,
        Action_MarshalBinary Ref.collab a = Ok raw /\
        Action_UnmarshalBinary Ref.collab recv raw = Ok a).
Proof.
  split.
  - intros b recv Hb. exists (Ref.write_item b). split; [reflexivity|].
    unfold BlocklistItem_UnmarshalBinary. cbn [json_Unmarshal_item Ref.collab].
    unfold Ref.json_Unmarshal_item.
    now rewrite (RefFacts.read_write_item b Hb).
  - intros a recv Ha Ht. exists (Ref.write_action a). split.
    + unfold Action_MarshalBinary. cbn [json_Marshal_action Ref.collab].
      unfold Ref.json_Marshal_action.
      unfold Ref.rfc3339_time in Ht.
      apply andb_prop in Ht as [Ht _]. apply andb_prop in Ht as [Ht _].
      apply andb_prop in Ht as [Hy0 Hy1].
      apply Z.leb_le in Hy0, Hy1.
      replace (Ref.year (CreatedAt a) <? 0) with false
        by (symmetry; apply Z.ltb_ge; lia).
      replace (9999 <? Ref.year (CreatedAt a)) with false
        by (symmetry; apply Z.ltb_ge; lia).
      reflexivity.
    + unfold Action_UnmarshalBinary. cbn [json_Unmarshal_action Ref.collab].
      unfold Ref.json_Unmarshal_action.
      now rewrite (RefFacts.read_write_action a Ha Ht).
Qed.

Lemma C10_round_trip_of_valid_text_witness :
  (exists raw : string,
      BlocklistItem_MarshalBinary Ref.collab
        (mkBlocklistItem "b112:58" ["caf" ++ e_acute] "DMCA" "alice@example.com")
      = Ok raw /\
      BlocklistItem_UnmarshalBinary Ref.collab zeroItem raw
      = Ok (mkBlocklistItem "b112:58" ["caf" ++ e_acute] "DMCA"
                            "alice@example.com")) /\
  (exists raw : string,
      Action_MarshalBinary Ref.collab actEarly = Ok raw /\
      Action_UnmarshalBinary Ref.collab zeroAction raw = Ok actEarly).
Proof.
  destruct C10_round_trip_of_valid_text as [Hitem Haction].
  split.
  - apply Hitem. reflexivity.
  - apply Haction; reflexivity.
Defined.

(** C10, as first stated, fails: a byte that is not UTF-8 comes back as
    U+FFFD, a time in the year 10000 is not encoded at all, and a zone
    offset of thirty seconds is written as [+00:00], so the time that comes
    back is another one. *)
Lemma C10_round_trip_counterexample :
  (exists (raw : string) (b' : BlocklistItem),
      BlocklistItem_MarshalBinary Ref.collab item_stray = Ok raw /\
      BlocklistItem_UnmarshalBinary Ref.collab zeroItem raw = Ok b' /\
      b' <> item_stray) /\
  (exists e : error, Action_MarshalBinary Ref.collab act_far = Err e) /\
  (exists (raw : string) (a' : Action),
      Action_MarshalBinary Ref.collab act_odd_zone = Ok raw /\
      Action_UnmarshalBinary Ref.collab zeroAction raw = Ok a' /\
      a' <> act_odd_zone).
Proof.
  split; [|split].
  - eexists. eexists. split; [reflexivity|]. split; [vm_compute; reflexivity|].
    intro H. vm_compute in H. discriminate H.
  - eexists. vm_compute. reflexivity.
  - eexists. eexists. split; [reflexivity|]. split; [vm_compute; reflexivity|].
    intro H. vm_compute in H. discriminate H.
Qed.

(** X18.  With the reference encodings, and for an item whose strings are
    all valid UTF-8, the key-value backend keeps the metadata of the first
    [Block]: the second call changes nothing and [Search] returns the item
    the first call built. *)
Lemma DS_Block_twice_Search
      (d : KV.Store) (id : Cid) (data data2 : BlockData) :
  DatastoreBlocklist.Contains Ref.collab d id = Ok false ->
  Ref.utf8_item (mkBlocklistItem (Ref.cid_String id) (dContent data)
                                 (dReason data) (dUser data)) = true ->
  exists d1 : KV.Store,
    DatastoreBlocklist.Block Ref.collab d id data = (d1, Ok true) /\
    DatastoreBlocklist.Block Ref.collab d1 id data2 = (d1, Ok false) /\
    DatastoreBlocklist.Search Ref.collab d1 id
    = Ok (mkBlocklistItem (Ref.cid_String id) (dContent data)
                          (dReason data) (dUser data)).
Proof.
  intros Hc Hutf.
  destruct (@DS_Block_twice Ref.collab d id data data2 _ Hc eq_refl)
    as (d1 & H1 & H2 & H3).
  exists d1. split; [exact H1|]. split; [exact H2|].
  rewrite H3. unfold BlocklistItem_UnmarshalBinary.
  cbn [json_Unmarshal_item cid_String Ref.collab].
  unfold Ref.json_Unmarshal_item.
  now rewrite (RefFacts.read_write_item _ Hutf).
Qed.

Lemma DS_Block_twice_Search_witness :
  exists d1 : KV.Store,
    DatastoreBlocklist.Block Ref.collab KV.empty cidB alice = (d1, Ok true) /\
    DatastoreBlocklist.Block Ref.collab d1 cidB bob = (d1, Ok false) /\
    DatastoreBlocklist.Search Ref.collab d1 cidB
    = Ok (mkBlocklistItem (Ref.cid_String cidB) (dContent alice)
                          (dReason alice) (dUser alice)).
Proof.
  apply (@DS_Block_twice_Search KV.empty cidB alice bob);
    [reflexivity | vm_compute; reflexivity].
Defined.

(* ------------------------------------------------------------------ *)
(** * Further properties of the key-value backend *)

(** X1.  In the key-value backend the version-0 CID of a multihash and its
    version-1 form under DagProtobuf are one entry: [cidToKey] gives them
    the same key, so [Contains], [Search] and [Unblock] do the same for
    both, and a successful [Block] of either makes [Contains] true for the
    other. *)
Theorem DS_legacy_and_current_share_entry
        (C : Collab) (h : Multihash) (d : KV.Store) :
  FromB58String C (cid_String C (CidV0 h)) = Ok h ->
  DatastoreBlocklist.cidToKey C (CidV0 h)
    = Ok (CidToDsKey C (CidV1 DagProtobuf h)) /\
  DatastoreBlocklist.Contains C d (CidV0 h)
    = DatastoreBlocklist.Contains C d (CidV1 DagProtobuf h) /\
  DatastoreBlocklist.Search C d (CidV0 h)
    = DatastoreBlocklist.Search C d (CidV1 DagProtobuf h) /\
  DatastoreBlocklist.Unblock C d (CidV0 h)
    = DatastoreBlocklist.Unblock C d (CidV1 DagProtobuf h) /\
  (forall (data : BlockData) (d' : KV.Store) (r : bool),
      DatastoreBlocklist.Block C d (CidV0 h) data = (d', Ok r) ->
      DatastoreBlocklist.Contains C d' (CidV1 DagProtobuf h) = Ok true) /\
  (forall (data : BlockData) (d' : KV.Store) (r : bool),
      DatastoreBlocklist.Block C d (CidV1 DagProtobuf h) data = (d', Ok r) ->
      DatastoreBlocklist.Contains C d' (CidV0 h) = Ok true).
Proof.
  intro Hb58.
  pose proof (@DS_cidToKey_v0 C h Hb58) as Hkey.
  split; [rewrite Hkey; reflexivity|].
  split; [now apply DS_Contains_v0_v1|].
  split; [unfold DatastoreBlocklist.Search; now rewrite Hkey|].
  split; [unfold DatastoreBlocklist.Unblock; now rewrite Hkey|].
  split; intros data d' r Hblock.
  - eapply DS_Block_then_Contains; [symmetry; exact Hkey | reflexivity
                                    | exact Hblock].
  - eapply DS_Block_then_Contains; [exact Hkey | reflexivity | exact Hblock].
Qed.

Lemma DS_legacy_and_current_share_entry_witness :
  DatastoreBlocklist.cidToKey Ref.collab cidA = Ok "/1:112:58" /\
  DatastoreBlocklist.Contains Ref.collab KV.empty cidA
    = DatastoreBlocklist.Contains Ref.collab KV.empty cidB /\
  DatastoreBlocklist.Search Ref.collab KV.empty cidA
    = DatastoreBlocklist.Search Ref.collab KV.empty cidB /\
  DatastoreBlocklist.Unblock Ref.collab KV.empty cidA
    = DatastoreBlocklist.Unblock Ref.collab KV.empty cidB /\
  (forall (data : BlockData) (d' : KV.Store) (r : bool),
      DatastoreBlocklist.Block Ref.collab KV.empty cidA data = (d', Ok r) ->
      DatastoreBlocklist.Contains Ref.collab d' cidB = Ok true) /\
  (forall (data : BlockData) (d' : KV.Store) (r : bool),
      DatastoreBlocklist.Block Ref.collab KV.empty cidB data = (d', Ok r) ->
      DatastoreBlocklist.Contains Ref.collab d' cidA = Ok true).
Proof.
  apply (@DS_legacy_and_current_share_entry Ref.collab hashX KV.empty).
  reflexivity.
Defined.

(** X2.  The undefined CID: [Contains] and [Block] of the key-value backend
    refuse it with [ErrNotFound] before any access to the store, which is
    left as it was; [Unblock] and [Purge] make no such test and succeed on a
    working store. *)
Theorem DS_undefined_cid
        (C : Collab) (d : KV.Store) (data : BlockData) :
  DatastoreBlocklist.Contains C d CidUndef = Err ErrNotFound /\
  DatastoreBlocklist.Block C d CidUndef data = (d, Err ErrNotFound) /\
  (KV.fault d = None ->
   snd (DatastoreBlocklist.Unblock C d CidUndef) = Ok tt /\
   snd (DatastoreBlocklist.Purge C d CidUndef) = Ok tt).
Proof.
  split; [reflexivity|]. split; [reflexivity|].
  intro Hf.
  unfold DatastoreBlocklist.Unblock, DatastoreBlocklist.Purge,
    DatastoreBlocklist.cidToKey, KV.Delete, KV.guard.
  cbn. rewrite Hf. now split.
Qed.

Lemma DS_undefined_cid_witness :
  DatastoreBlocklist.Contains Ref.collab KV.empty CidUndef = Err ErrNotFound /\
  DatastoreBlocklist.Block Ref.collab KV.empty CidUndef alice
    = (KV.empty, Err ErrNotFound) /\
  snd (DatastoreBlocklist.Unblock Ref.collab KV.empty CidUndef) = Ok tt /\
  snd (DatastoreBlocklist.Purge Ref.collab KV.empty CidUndef) = Ok tt.
Proof.
  destruct (DS_undefined_cid Ref.collab KV.empty alice) as (H1 & H2 & H3).
  split; [exact H1|]. split; [exact H2|]. apply H3. reflexivity.
Defined.

(** ** Keys of the two namespaces *)

Lemma KV_lookup_remove_other (k k' : string) (l : list (string * string)) :
  k <> k' -> KV.lookup k (KV.remove k' l) = KV.lookup k l.
Proof.
  intro Hne. induction l as [|[k0 v] l IH]; cbn; [reflexivity|].
  destruct (String.eqb_spec k' k0) as [->|Hk0].
  - apply String.eqb_neq in Hne. now rewrite Hne.
  - cbn. now rewrite IH.
Qed.

Lemma KV_under_remove_outside (p k : string) (l : list (string * string)) :
  KV.strip p k = None -> KV.under p (KV.remove k l) = KV.under p l.
Proof.
  intro Hs. induction l as [|[k0 v] l IH]; cbn; [reflexivity|].
  destruct (String.eqb_spec k k0) as [<-|Hk0].
  - now rewrite Hs.
  - cbn. now rewrite IH.
Qed.

Lemma namespaces_disjoint (k k' : string) :
  (DatastoreBlocklist.safemodestore ++ k)%string
  <> (DatastoreBlocklist.auditstore ++ k')%string.
Proof. cbn. discriminate. Qed.

Lemma blocklist_key_not_audit (k : string) :
  KV.strip DatastoreBlocklist.auditstore
           (DatastoreBlocklist.safemodestore ++ k) = None.
Proof. reflexivity. Qed.

(** A write or a delete under one key leaves the other keys as they
    were. *)
Lemma KV_Has_after_Put (d d' : KV.Store) (k k' v : string) :
  k <> k' -> KV.Put d k' v = Ok d' -> KV.Has d' k = KV.Has d k.
Proof.
  intro Hne. unfold KV.Put, KV.Has, KV.guard.
  destruct (KV.fault d) eqn:Hf; [discriminate|]. intros [= <-]. cbn.
  apply String.eqb_neq in Hne. rewrite Hne.
  apply String.eqb_neq in Hne. now rewrite KV_lookup_remove_other.
Qed.

Lemma KV_Get_after_Put (d d' : KV.Store) (k k' v : string) :
  k <> k' -> KV.Put d k' v = Ok d' -> KV.Get d' k = KV.Get d k.
Proof.
  intro Hne. unfold KV.Put, KV.Get, KV.guard.
  destruct (KV.fault d) eqn:Hf; [discriminate|]. intros [= <-]. cbn.
  apply String.eqb_neq in Hne. rewrite Hne.
  apply String.eqb_neq in Hne. now rewrite KV_lookup_remove_other.
Qed.

Lemma KV_Has_after_Delete (d d' : KV.Store) (k k' : string) :
  k <> k' -> KV.Delete d k' = Ok d' -> KV.Has d' k = KV.Has d k.
Proof.
  intro Hne. unfold KV.Delete, KV.Has, KV.guard.
  destruct (KV.fault d) eqn:Hf; [discriminate|]. intros [= <-]. cbn.
  now rewrite KV_lookup_remove_other.
Qed.

Lemma KV_Query_after_Put (d d' : KV.Store) (p k v : string) (n : Z) :
  KV.strip p k = None -> KV.Put d k v = Ok d' ->
  KV.QueryDesc d' p n = KV.QueryDesc d p n.
Proof.
  intro Hs. unfold KV.Put, KV.QueryDesc, KV.guard.
  destruct (KV.fault d) eqn:Hf; [discriminate|]. intros [= <-]. cbn.
  rewrite Hs. now rewrite KV_under_remove_outside.
Qed.

Lemma KV_Query_after_Delete (d d' : KV.Store) (p k : string) (n : Z) :
  KV.strip p k = None -> KV.Delete d k = Ok d' ->
  KV.QueryDesc d' p n = KV.QueryDesc d p n.
Proof.
  intro Hs. unfold KV.Delete, KV.QueryDesc, KV.guard.
  destruct (KV.fault d) eqn:Hf; [discriminate|]. intros [= <-]. cbn.
  now rewrite KV_under_remove_outside.
Qed.

(** X4.  When the store is out of order, every reading and writing
    operation of the key-value backend on a defined CID returns the store's
    error, and the store is left as it was. *)
Theorem DS_store_failure_is_returned
        (C : Collab) (d : KV.Store) (id : Cid) (k msg : string)
        (data : BlockData) (n : Z) :
  KV.fault d = Some msg ->
  Defined id = true ->
  DatastoreBlocklist.cidToKey C id = Ok k ->
  DatastoreBlocklist.Contains C d id = Err (ErrExternal msg) /\
  DatastoreBlocklist.Block C d id data = (d, Err (ErrExternal msg)) /\
  DatastoreBlocklist.Unblock C d id = (d, Err (ErrExternal msg)) /\
  DatastoreBlocklist.Search C d id = Err (ErrExternal msg) /\
  DatastoreBlocklist.Purge C d id = (d, Err (ErrExternal msg)) /\
  DatastoreBlocklist.GetLogs C d n = Err (ErrExternal msg).
Proof.
  intros Hf Hdef Hk.
  assert (Hc : DatastoreBlocklist.Contains C d id = Err (ErrExternal msg)).
  { unfold DatastoreBlocklist.Contains, KV.Has, KV.guard.
    now rewrite Hdef, Hk, Hf. }
  unfold DatastoreBlocklist.Block, DatastoreBlocklist.Unblock,
    DatastoreBlocklist.Search, DatastoreBlocklist.Purge,
    DatastoreBlocklist.GetLogs.
  rewrite Hc, Hk.
  unfold KV.Delete, KV.Get, KV.QueryDesc, KV.guard. rewrite Hf. cbn.
  now repeat split.
Qed.

Lemma DS_store_failure_is_returned_witness :
  let e := ErrExternal "connection refused" in
  DatastoreBlocklist.Contains Ref.collab broken_store cidB = Err e /\
  DatastoreBlocklist.Block Ref.collab broken_store cidB alice
    = (broken_store, Err e) /\
  DatastoreBlocklist.Unblock Ref.collab broken_store cidB
    = (broken_store, Err e) /\
  DatastoreBlocklist.Search Ref.collab broken_store cidB = Err e /\
  DatastoreBlocklist.Purge Ref.collab broken_store cidB
    = (broken_store, Err e) /\
  DatastoreBlocklist.GetLogs Ref.collab broken_store 10 = Err e.
Proof.
  intro e.
  apply (@DS_store_failure_is_returned Ref.collab broken_store cidB "/1:112:58"
           "connection refused" alice 10); reflexivity.
Defined.

(** X5.  [Search] of a CID without an entry fails with the error of the
    store, in both backends: the datastore's key-not-found error in the
    key-value backend, the record-not-found error in the relational one. *)
Theorem Search_of_absent_entry (C : Collab) :
  (forall (d : KV.Store) (id : Cid),
      DatastoreBlocklist.Contains C d id = Ok false ->
      DatastoreBlocklist.Search C d id
      = Err (ErrExternal "datastore: key not found")) /\
  (forall (db : SQL.DB) (id : Cid),
      SQL.Count db (cid_String C id) = Ok 0 ->
      PgBlocklist.Search C db id = Err (ErrExternal "record not found")).
Proof.
  split.
  - intros d id Hc. destruct (DS_Contains_key _ _ _ Hc) as (k & Hk & Hhas).
    unfold DatastoreBlocklist.Search. rewrite Hk. cbn.
    unfold KV.Has, KV.Get, KV.guard in *.
    destruct (KV.fault d); [discriminate|].
    now destruct (KV.lookup _ (KV.entries d)).
  - intros db id Hcount. unfold PgBlocklist.Search.
    now erewrite SQL_Count_zero_First by exact Hcount.
Qed.

Lemma Search_of_absent_entry_witness :
  DatastoreBlocklist.Search Ref.collab KV.empty cidB
    = Err (ErrExternal "datastore: key not found") /\
  PgBlocklist.Search Ref.collab SQL.empty cidB
    = Err (ErrExternal "record not found").
Proof.
  destruct (Search_of_absent_entry Ref.collab) as [Hds Hpg].
  split; [apply Hds | apply Hpg]; reflexivity.
Defined.

(** X6.  [Purge] of the key-value backend deletes the payload under the
    CID's key in the underlying store: afterwards the key is absent, a store
    that did not hold it is unchanged (no error), and, the key not being a
    key of the blocklist namespace, [Contains] and [Search] answer as
    before. *)
Theorem DS_Purge_removes_the_payload_only
        (C : Collab) (d : KV.Store) (id : Cid) (k : string) :
  DatastoreBlocklist.cidToKey C id = Ok k ->
  KV.fault d = None ->
  (forall k' : string, k <> (DatastoreBlocklist.safemodestore ++ k')%string) ->
  exists d' : KV.Store,
    DatastoreBlocklist.Purge C d id = (d', Ok tt) /\
    KV.Has d' k = Ok false /\
    (KV.Has d k = Ok false -> d' = d) /\
    (forall id' : Cid,
        DatastoreBlocklist.Contains C d' id'
        = DatastoreBlocklist.Contains C d id') /\
    (forall id' : Cid,
        DatastoreBlocklist.Search C d' id'
        = DatastoreBlocklist.Search C d id').
Proof.
  intros Hk Hf Hns.
  exists (KV.mkStore (KV.remove k (KV.entries d)) (KV.fault d)).
  assert (Hdel : KV.Delete d k
                 = Ok (KV.mkStore (KV.remove k (KV.entries d)) (KV.fault d)))
    by (unfold KV.Delete, KV.guard; now rewrite Hf).
  split; [unfold DatastoreBlocklist.Purge; now rewrite Hk, Hdel|].
  split.
  { unfold KV.Has, KV.guard. cbn. now rewrite Hf, KV_lookup_remove. }
  split.
  { unfold KV.Has, KV.guard. destruct d as [l f]. cbn in *. subst f.
    destruct (KV.lookup k l) eqn:E; [discriminate|].
    intros _. now rewrite (KV_remove_absent _ _ E). }
  split; intro id'.
  - unfold DatastoreBlocklist.Contains.
    destruct (negb (Defined id')); [reflexivity|].
    destruct (DatastoreBlocklist.cidToKey C id') as [k'| |]; cbn;
      try reflexivity.
    eapply KV_Has_after_Delete; [|exact Hdel].
    intro E. now apply (Hns k').
  - unfold DatastoreBlocklist.Search.
    destruct (DatastoreBlocklist.cidToKey C id') as [k'| |]; cbn;
      try reflexivity.
    unfold KV.Get, KV.guard. cbn. rewrite Hf.
    rewrite KV_lookup_remove_other; [reflexivity|].
    intro E. now apply (Hns k').
Qed.

Lemma DS_Purge_removes_the_payload_only_witness :
  exists d' : KV.Store,
    DatastoreBlocklist.Purge Ref.collab payload_store cidB = (d', Ok tt) /\
    KV.Has d' "/1:112:58" = Ok false /\
    (KV.Has payload_store "/1:112:58" = Ok false -> d' = payload_store) /\
    (forall id' : Cid,
        DatastoreBlocklist.Contains Ref.collab d' id'
        = DatastoreBlocklist.Contains Ref.collab payload_store id') /\
    (forall id' : Cid,
        DatastoreBlocklist.Search Ref.collab d' id'
        = DatastoreBlocklist.Search Ref.collab payload_store id').
Proof.
  apply (@DS_Purge_removes_the_payload_only Ref.collab payload_store cidB
           "/1:112:58").
  - reflexivity.
  - reflexivity.
  - intros k' H. cbn in H. discriminate H.
Defined.

(** X7.  The blocklist and the audit log of the key-value backend do not
    touch each other: [AddLog] never changes what [Contains] and [Search]
    answer, and [Block] and [Unblock] never change what [GetLogs]
    returns. *)
Theorem DS_namespaces_do_not_interfere (C : Collab) (d : KV.Store) :
  (forall (act : Action) (id : Cid),
      DatastoreBlocklist.Contains C (fst (DatastoreBlocklist.AddLog C d act)) id
      = DatastoreBlocklist.Contains C d id /\
      DatastoreBlocklist.Search C (fst (DatastoreBlocklist.AddLog C d act)) id
      = DatastoreBlocklist.Search C d id) /\
  (forall (id : Cid) (data : BlockData) (n : Z),
      DatastoreBlocklist.GetLogs C
        (fst (DatastoreBlocklist.Block C d id data)) n
      = DatastoreBlocklist.GetLogs C d n) /\
  (forall (id : Cid) (n : Z),
      DatastoreBlocklist.GetLogs C (fst (DatastoreBlocklist.Unblock C d id)) n
      = DatastoreBlocklist.GetLogs C d n).
Proof.
  split; [|split].
  - intros act id. unfold DatastoreBlocklist.AddLog.
    destruct (bad_typ (Typ act)); [now split|].
    destruct (Action_MarshalBinary C act) as [raw| |]; try now split.
    destruct (KV.Put d _ raw) as [d'| |] eqn:Hput; try now split.
    cbn [fst]. split.
    + unfold DatastoreBlocklist.Contains.
      destruct (negb (Defined id)); [reflexivity|].
      destruct (DatastoreBlocklist.cidToKey C id) as [k| |]; cbn;
        try reflexivity.
      eapply KV_Has_after_Put; [apply namespaces_disjoint | exact Hput].
    + unfold DatastoreBlocklist.Search.
      destruct (DatastoreBlocklist.cidToKey C id) as [k| |]; cbn;
        try reflexivity.
      erewrite KV_Get_after_Put;
        [reflexivity | apply namespaces_disjoint | exact Hput].
  - intros id data n. unfold DatastoreBlocklist.Block.
    destruct (DatastoreBlocklist.cidToKey C id) as [k| |]; try reflexivity.
    destruct (DatastoreBlocklist.Contains C d id) as [[|]| |];
      try reflexivity.
    destruct (BlocklistItem_MarshalBinary C _) as [raw| |]; try reflexivity.
    destruct (KV.Put d _ raw) as [d'| |] eqn:Hput; try reflexivity.
    cbn [fst]. unfold DatastoreBlocklist.GetLogs.
    erewrite KV_Query_after_Put;
      [reflexivity | apply blocklist_key_not_audit | exact Hput].
  - intros id n. unfold DatastoreBlocklist.Unblock.
    destruct (DatastoreBlocklist.cidToKey C id) as [k| |]; try reflexivity.
    destruct (KV.Delete d _) as [d'| |] eqn:Hdel; try reflexivity.
    cbn [fst]. unfold DatastoreBlocklist.GetLogs.
    erewrite KV_Query_after_Delete;
      [reflexivity | apply blocklist_key_not_audit | exact Hdel].
Qed.

(** ** The audit log of the key-value backend *)

Lemma Ref_Marshal_action (a : Action) :
  Ref.rfc3339_time (CreatedAt a) = true ->
  Action_MarshalBinary Ref.collab a = Ok (Ref.write_action a).
Proof.
  intro Ht. unfold Action_MarshalBinary. cbn [json_Marshal_action Ref.collab].
  unfold Ref.json_Marshal_action, Ref.rfc3339_time in *.
  apply andb_prop in Ht as [Ht _]. apply andb_prop in Ht as [Ht _].
  apply andb_prop in Ht as [Hy0 Hy1]. apply Z.leb_le in Hy0, Hy1.
  replace (Ref.year (CreatedAt a) <? 0) with false
    by (symmetry; apply Z.ltb_ge; lia).
  replace (9999 <? Ref.year (CreatedAt a)) with false
    by (symmetry; apply Z.ltb_ge; lia).
  reflexivity.
Qed.

Lemma Ref_Unmarshal_action (a recv : Action) :
  Ref.utf8_action a = true ->
  Ref.rfc3339_time (CreatedAt a) = true ->
  Action_UnmarshalBinary Ref.collab recv (Ref.write_action a) = Ok a.
Proof.
  intros Ha Ht. unfold Action_UnmarshalBinary.
  cbn [json_Unmarshal_action Ref.collab]. unfold Ref.json_Unmarshal_action.
  now rewrite (RefFacts.read_write_action a Ha Ht).
Qed.

Lemma Ref_NewKey_slash (s : string) : exists r, Ref.NewKey s = String "/" r.
Proof.
  unfold Ref.NewKey. destruct s as [|c s]; [now exists EmptyString|].
  destruct (Ascii.ascii_dec c "/") as [->|Hc]; [now exists s|].
  exists (String c s).
  destruct c as [[] [] [] [] [] [] [] []]; try reflexivity. now elim Hc.
Qed.

Lemma KV_strip_prefix (p r : string) :
  KV.strip p (p ++ String "/" r) = Some (String "/" r).
Proof.
  induction p as [|c p IH]; cbn; [reflexivity|].
  now rewrite Ascii.eqb_refl.
Qed.

Lemma KV_under_remove_nil (p k : string) (l : list (string * string)) :
  KV.under p l = [] -> KV.under p (KV.remove k l) = [].
Proof.
  induction l as [|[k0 v] l IH]; cbn; [reflexivity|].
  destruct (KV.strip p k0) eqn:Es; [discriminate|]. intro H.
  destruct (String.eqb k k0); [now apply IH|].
  cbn. rewrite Es. now apply IH.
Qed.

Lemma KV_remove_remove (k : string) (l : list (string * string)) :
  KV.remove k (KV.remove k l) = KV.remove k l.
Proof.
  induction l as [|[k0 v] l IH]; cbn; [reflexivity|].
  destruct (String.eqb k k0) eqn:E; [exact IH|].
  cbn. now rewrite E, IH.
Qed.

(** X8.  On a working store without audit entries, [AddLog] of a well-typed
    action that its encoding carries writes one entry, and [GetLogs] then
    returns exactly that action, for every limit that [make] accepts as a
    capacity (not negative, and within what the runtime allocates). *)
Theorem DS_AddLog_then_GetLogs (d : KV.Store) (act : Action) (n : Z) :
  KV.fault d = None ->
  ds_log_count d = 0%nat ->
  bad_typ (Typ act) = false ->
  Ref.utf8_action act = true ->
  Ref.rfc3339_time (CreatedAt act) = true ->
  Go.cap_ok Go.ptrSize n = true ->
  exists d' : KV.Store,
    DatastoreBlocklist.AddLog Ref.collab d act = (d', Ok tt) /\
    ds_log_count d' = 1%nat /\
    DatastoreBlocklist.GetLogs Ref.collab d' n = Ok [act].
Proof.
  intros Hf Hcount Hty Hutf Htime Hcap.
  assert (Hn : 0 <= n).
  { unfold Go.cap_ok in Hcap. apply andb_prop in Hcap as [Hcap _].
    now apply Z.leb_le. }
  unfold ds_log_count in Hcount. apply length_zero_iff_nil in Hcount.
  destruct (Ref_NewKey_slash (Ref.Format_RFC3339 (CreatedAt act))) as [r Hr].
  eexists. split.
  { unfold DatastoreBlocklist.AddLog. rewrite Hty.
    rewrite (Ref_Marshal_action act Htime).
    unfold KV.Put, KV.guard. rewrite Hf. reflexivity. }
  cbn [NewKey Format_RFC3339 Ref.collab]. rewrite Hr.
  assert (Hunder : KV.under DatastoreBlocklist.auditstore
                     ((DatastoreBlocklist.auditstore ++ String "/" r,
                       Ref.write_action act)
                        :: KV.remove (DatastoreBlocklist.auditstore
                                        ++ String "/" r) (KV.entries d))
                   = [(String "/" r, Ref.write_action act)]).
  { cbn [KV.under]. rewrite KV_strip_prefix.
    now rewrite (KV_under_remove_nil _ _ _ Hcount). }
  split.
  { unfold ds_log_count. cbn [KV.entries]. now rewrite Hunder. }
  unfold DatastoreBlocklist.GetLogs, KV.QueryDesc, KV.guard.
  cbn [KV.fault KV.entries]. rewrite Hunder. cbn [bind KV.sort_desc fold_right
                                                   KV.insert_desc].
  rewrite Hcap.
  assert (Hlim : KV.apply_limit n [(String "/" r, Ref.write_action act)]
                 = [(String "/" r, Ref.write_action act)]).
  { unfold KV.apply_limit. destruct (Z.eqb_spec n 0); [reflexivity|].
    destruct (Z.to_nat n) eqn:E; [lia|]. cbn [firstn]. now rewrite firstn_nil. }
  rewrite Hlim. cbn [DatastoreBlocklist.decode_all snd].
  now rewrite (Ref_Unmarshal_action act zeroAction Hutf Htime).
Qed.

Lemma DS_AddLog_then_GetLogs_witness :
  exists d' : KV.Store,
    DatastoreBlocklist.AddLog Ref.collab payload_store actX = (d', Ok tt) /\
    ds_log_count d' = 1%nat /\
    DatastoreBlocklist.GetLogs Ref.collab d' 1 = Ok [actX].
Proof.
  apply (@DS_AddLog_then_GetLogs payload_store actX 1); reflexivity.
Defined.

(** X9.  The key of an audit entry is the RFC 3339 text of its creation
    time, to the second.  On a working store the first [AddLog] stores the
    encoding of its action under that key; a second action with the same
    text is stored under the same key, in place of the first: the store is
    then the one the second action alone would have left, and it holds no
    more audit entries than after the first. *)
Theorem DS_AddLog_same_second_overwrites
        (C : Collab) (d : KV.Store) (a1 a2 : Action) (raw1 raw2 : string) :
  KV.fault d = None ->
  bad_typ (Typ a1) = false ->
  bad_typ (Typ a2) = false ->
  Action_MarshalBinary C a1 = Ok raw1 ->
  Action_MarshalBinary C a2 = Ok raw2 ->
  Format_RFC3339 C (CreatedAt a1) = Format_RFC3339 C (CreatedAt a2) ->
  let k := (DatastoreBlocklist.auditstore
              ++ NewKey C (Format_RFC3339 C (CreatedAt a1)))%string in
  let d1 := fst (DatastoreBlocklist.AddLog C d a1) in
  let d2 := fst (DatastoreBlocklist.AddLog C d1 a2) in
  snd (DatastoreBlocklist.AddLog C d a1) = Ok tt /\
  KV.Get d1 k = Ok raw1 /\
  snd (DatastoreBlocklist.AddLog C d1 a2) = Ok tt /\
  KV.Get d2 k = Ok raw2 /\
  d2 = fst (DatastoreBlocklist.AddLog C d a2) /\
  ds_log_count d2 = ds_log_count d1.
Proof.
  intros Hf H1 H2 Hr1 Hr2 Hkey k d1 d2. subst d2 d1 k.
  unfold DatastoreBlocklist.AddLog. rewrite H1, H2, Hr1, Hr2, Hkey.
  set (k := (DatastoreBlocklist.auditstore
               ++ NewKey C (Format_RFC3339 C (CreatedAt a2)))%string).
  unfold KV.Put, KV.Get, KV.guard. rewrite Hf.
  cbn [fst snd KV.fault KV.entries KV.remove KV.lookup]. rewrite ?Hf.
  cbn [fst snd KV.fault KV.entries KV.remove KV.lookup].
  rewrite ?String.eqb_refl, ?Hf.
  cbn [fst snd KV.fault KV.entries KV.remove KV.lookup].
  rewrite ?String.eqb_refl, ?Hf.
  rewrite KV_remove_remove.
  split; [reflexivity|]. split; [reflexivity|]. split; [reflexivity|].
  split; [reflexivity|]. split; [reflexivity|].
  unfold ds_log_count. cbn [KV.entries KV.under].
  now destruct (KV.strip DatastoreBlocklist.auditstore k).
Qed.

Lemma DS_AddLog_same_second_overwrites_witness :
  let k := "/safemode/audit/2021-01-01T09:00:00Z" in
  let d1 := fst (DatastoreBlocklist.AddLog Ref.collab KV.empty actX) in
  let d2 := fst (DatastoreBlocklist.AddLog Ref.collab d1 actSoon) in
  snd (DatastoreBlocklist.AddLog Ref.collab KV.empty actX) = Ok tt /\
  KV.Get d1 k = Ok (Ref.write_action actX) /\
  snd (DatastoreBlocklist.AddLog Ref.collab d1 actSoon) = Ok tt /\
  KV.Get d2 k = Ok (Ref.write_action actSoon) /\
  d2 = fst (DatastoreBlocklist.AddLog Ref.collab KV.empty actSoon) /\
  ds_log_count d2 = ds_log_count d1.
Proof.
  apply (@DS_AddLog_same_second_overwrites Ref.collab KV.empty actX actSoon
           (Ref.write_action actX) (Ref.write_action actSoon));
    reflexivity.
Defined.

Lemma decoded_In (C : Collab) (rr : list (string * string))
      (acts : list Action) (res : string * string) :
  decoded C rr acts -> In res rr ->
  is_ok (Action_UnmarshalBinary C zeroAction (snd res)) = true.
Proof.
  induction 1 as [|x a rr acts Hx _ IH]; cbn; [contradiction|].
  intros [<-|Hin]; [now rewrite Hx | now apply IH].
Qed.

(** X10.  [GetLogs] of the key-value backend is all or nothing: when it
    succeeds it returns one action for each entry the query gave, and one
    entry that does not decode makes the whole call fail. *)
Theorem DS_GetLogs_all_or_nothing
        (C : Collab) (d : KV.Store) (n : Z) (rr : list (string * string)) :
  0 <= n ->
  KV.QueryDesc d DatastoreBlocklist.auditstore n = Ok rr ->
  (forall acts : list Action,
      DatastoreBlocklist.GetLogs C d n = Ok acts ->
      List.length acts = List.length rr) /\
  (forall res : string * string,
      In res rr ->
      is_ok (Action_UnmarshalBinary C zeroAction (snd res)) = false ->
      is_ok (DatastoreBlocklist.GetLogs C d n) = false).
Proof.
  intros Hn Hq.
  assert (Hspec : forall acts, DatastoreBlocklist.GetLogs C d n = Ok acts ->
                               decoded C rr acts).
  { intros acts. unfold DatastoreBlocklist.GetLogs. rewrite Hq. cbn [bind].
    destruct (Go.cap_ok Go.ptrSize n); [|discriminate].
    intro H. apply decode_all_spec in H as (tail & -> & Hdec). exact Hdec. }
  split.
  - intros acts H. symmetry. exact (Forall2_length (Hspec acts H)).
  - intros res Hin Hbad.
    destruct (DatastoreBlocklist.GetLogs C d n) as [acts| |] eqn:E;
      try reflexivity.
    pose proof (decoded_In res (Hspec acts eq_refl) Hin) as Hok.
    rewrite Hbad in Hok. discriminate Hok.
Qed.

Lemma DS_GetLogs_all_or_nothing_witness :
  (forall acts : list Action,
      DatastoreBlocklist.GetLogs Ref.collab corrupt_log 1 = Ok acts ->
      List.length acts = 1%nat) /\
  is_ok (DatastoreBlocklist.GetLogs Ref.collab corrupt_log 1) = false.
Proof.
  destruct (@DS_GetLogs_all_or_nothing Ref.collab corrupt_log 1
              [("/2021-01-01T09:00:00Z", "not json")])
    as [Hlen Hbad]; [lia | reflexivity |].
  split; [exact Hlen|].
  apply (Hbad ("/2021-01-01T09:00:00Z", "not json")); [now left | reflexivity].
Defined.



(* ------------------------------------------------------------------ *)
(** * Further properties of the relational backend *)




Lemma SQL_Count_zero_filter (db : SQL.DB) (q : string) :
  SQL.Count db q = Ok 0 ->
  SQL.fault db = None /\ filter (SQL.where_hash q) (SQL.blocklist db) = [].
Proof.
  unfold SQL.Count, SQL.guard. destruct (SQL.fault db); [discriminate|].
  intro H. split; [reflexivity|].
  destruct (filter (SQL.where_hash q) (SQL.blocklist db)); [reflexivity|].
  cbn [List.length] in H. injection H as H. lia.
Qed.



(** X12.  For a CID that is not of version 0, the relational [Block] is
    idempotent: the first call inserts the row and returns [false], after
    which [Contains] is true and a second call returns [true] and leaves the
    table, hence what [Search] returns, as the first call left it. *)
Theorem Pg_Block_twice_current
        (C : Collab) (db : SQL.DB) (id : Cid) (data data2 : BlockData) :
  Version id <> 0 ->
  PgBlocklist.Contains C db id = Ok false ->
  PgBlocklist.Block C db id data = (pg_inserted C db id data, Ok false) /\
  PgBlocklist.Contains C (pg_inserted C db id data) id = Ok true /\
  PgBlocklist.Block C (pg_inserted C db id data) id data2
  = (pg_inserted C db id data, Ok true).
Proof.
  intros Hv Hc.
  assert (Hcount : SQL.Count db (cid_String C id) = Ok 0).
  { rewrite (@Pg_Contains_current C db id Hv) in Hc.
    unfold SQL.Count, SQL.guard in *. destruct (SQL.fault db); [discriminate|].
    cbn in Hc. injection Hc as Hc. apply Z.ltb_ge in Hc. f_equal. lia. }
  assert (Hb : PgBlocklist.Block C db id data
               = (pg_inserted C db id data, Ok false)).
  { destruct (SQL_Count_zero_filter _ _ Hcount) as [Hf _].
    unfold PgBlocklist.Block. rewrite Hc.
    unfold SQL.CreateItem, SQL.guard, pg_inserted. now rewrite Hf. }
  assert (Hc1 : PgBlocklist.Contains C (pg_inserted C db id data) id = Ok true).
  { rewrite (@Pg_Contains_current C _ id Hv).
    now rewrite (@SQL_Count_after_same C db id data 0 Hcount). }
  split; [exact Hb|]. split; [exact Hc1|].
  unfold PgBlocklist.Block. now rewrite Hc1.
Qed.

Lemma Pg_Block_twice_current_witness :
  PgBlocklist.Block Ref.collab SQL.empty cidB alice
    = (pg_inserted Ref.collab SQL.empty cidB alice, Ok false) /\
  PgBlocklist.Contains Ref.collab (pg_inserted Ref.collab SQL.empty cidB alice)
                       cidB = Ok true /\
  PgBlocklist.Block Ref.collab (pg_inserted Ref.collab SQL.empty cidB alice)
                    cidB bob
  = (pg_inserted Ref.collab SQL.empty cidB alice, Ok true).
Proof.
  apply (@Pg_Block_twice_current Ref.collab SQL.empty cidB alice bob);
    [discriminate | reflexivity].
Defined.

Lemma filter_scoped_live (h : string) (l : list PgBlocklistItem) :
  forallb (fun r => SQL.live (pModel r)) l = true ->
  filter (SQL.scoped h) l = filter (SQL.where_hash h) l.
Proof.
  induction l as [|r l IH]; cbn; [reflexivity|].
  intro H. apply andb_prop in H as [Hr Hl]. unfold SQL.scoped at 1.
  rewrite Hr, (IH Hl). reflexivity.
Qed.

(** X13.  For a CID that is not of version 0, on a working relational
    store, [Contains] answers, and it is true whenever [Search] finds an
    item; when no row of the table is soft-deleted, it is true exactly when
    [Search] finds an item. *)
Theorem Pg_Search_implies_Contains (C : Collab) (db : SQL.DB) (id : Cid) :
  Version id <> 0 ->
  SQL.fault db = None ->
  exists b : bool,
    PgBlocklist.Contains C db id = Ok b /\
    (is_ok (PgBlocklist.Search C db id) = true -> b = true) /\
    (forallb (fun r => SQL.live (pModel r)) (SQL.blocklist db) = true ->
     b = is_ok (PgBlocklist.Search C db id)).
Proof.
  intros Hv Hf. rewrite (@Pg_Contains_current C db id Hv).
  unfold PgBlocklist.Search, SQL.Count, SQL.First, SQL.guard. rewrite Hf.
  cbn [bind]. eexists. split; [reflexivity|]. split.
  - destruct (filter (SQL.where_hash (cid_String C id)) (SQL.blocklist db))
      eqn:E.
    + rewrite (filter_scoped_nil _ _ E). discriminate.
    + reflexivity.
  - intro Hlive. rewrite (filter_scoped_live _ _ Hlive).
    now destruct (filter (SQL.where_hash (cid_String C id))
                         (SQL.blocklist db)).
Qed.

Lemma Pg_Search_implies_Contains_witness :
  exists b : bool,
    PgBlocklist.Contains Ref.collab
      (pg_inserted Ref.collab SQL.empty cidB alice) cidB = Ok b /\
    (is_ok (PgBlocklist.Search Ref.collab
              (pg_inserted Ref.collab SQL.empty cidB alice) cidB) = true ->
     b = true) /\
    (forallb (fun r => SQL.live (pModel r))
             (SQL.blocklist (pg_inserted Ref.collab SQL.empty cidB alice))
     = true ->
     b = is_ok (PgBlocklist.Search Ref.collab
                  (pg_inserted Ref.collab SQL.empty cidB alice) cidB)).
Proof.
  apply (@Pg_Search_implies_Contains Ref.collab
           (pg_inserted Ref.collab SQL.empty cidB alice) cidB);
    [discriminate | reflexivity].
Defined.

(** A soft-deleted row is counted by [Contains] and skipped by [Search],
    and a later [Block] takes the content as already blocked. *)
Example Pg_soft_deleted_row :
  PgBlocklist.Contains Ref.collab soft_deleted_row cidB = Ok true /\
  PgBlocklist.Search Ref.collab soft_deleted_row cidB
    = Err (ErrExternal "record not found") /\
  PgBlocklist.Block Ref.collab soft_deleted_row cidB alice
    = (soft_deleted_row, Ok true).
Proof. repeat split. Qed.

(** X14.  When the relational store is out of order, [Contains], [Block],
    [Search], [Unblock] and [GetLogs] return the store's error, and so does
    [AddLog] of a well-typed action without ids; nothing is changed. *)
Theorem Pg_store_failure_is_returned
        (C : Collab) (db : SQL.DB) (id : Cid) (msg : string)
        (data : BlockData) (act : Action) (n : Z) :
  SQL.fault db = Some msg ->
  Version id <> 0 ->
  bad_typ (Typ act) = false ->
  Ids act = [] ->
  PgBlocklist.Contains C db id = Err (ErrExternal msg) /\
  PgBlocklist.Block C db id data = (db, Err (ErrExternal msg)) /\
  PgBlocklist.Search C db id = Err (ErrExternal msg) /\
  PgBlocklist.Unblock C db id = (db, Err (ErrExternal msg)) /\
  PgBlocklist.GetLogs C db n = Err (ErrExternal msg) /\
  PgBlocklist.AddLog C db act = (db, Err (ErrExternal msg)).
Proof.
  intros Hf Hv Hty Hids.
  assert (Hc : PgBlocklist.Contains C db id = Err (ErrExternal msg)).
  { rewrite (@Pg_Contains_current C db id Hv). unfold SQL.Count, SQL.guard.
    now rewrite Hf. }
  assert (Hs : PgBlocklist.Search C db id = Err (ErrExternal msg)).
  { unfold PgBlocklist.Search, SQL.First, SQL.guard. now rewrite Hf. }
  split; [exact Hc|].
  split; [unfold PgBlocklist.Block; now rewrite Hc|].
  split; [exact Hs|].
  split; [unfold PgBlocklist.Unblock; now rewrite Hs|].
  split.
  - unfold PgBlocklist.GetLogs, SQL.FindLogs, SQL.guard. now rewrite Hf.
  - unfold PgBlocklist.AddLog. rewrite Hty, Hids. cbn.
    unfold SQL.CreateLog, SQL.guard. now rewrite Hf.
Qed.

Lemma Pg_store_failure_is_returned_witness :
  let e := ErrExternal "connection refused" in
  PgBlocklist.Contains Ref.collab broken_db cidB = Err e /\
  PgBlocklist.Block Ref.collab broken_db cidB alice = (broken_db, Err e) /\
  PgBlocklist.Search Ref.collab broken_db cidB = Err e /\
  PgBlocklist.Unblock Ref.collab broken_db cidB = (broken_db, Err e) /\
  PgBlocklist.GetLogs Ref.collab broken_db 10 = Err e /\
  PgBlocklist.AddLog Ref.collab broken_db act_no_ids = (broken_db, Err e).
Proof.
  intro e.
  apply (@Pg_store_failure_is_returned Ref.collab broken_db cidB
           "connection refused" alice act_no_ids 10);
    [reflexivity | discriminate | reflexivity | reflexivity].
Defined.

Lemma insert_log_cons (x : PgLogItem) (l : list PgLogItem) :
  exists y t, SQL.insert_log x l = y :: t.
Proof.
  destruct l as [|z l]; cbn; [now eexists; eexists|].
  destruct (SQL.log_before x z); now eexists; eexists.
Qed.

Lemma order_logs_app_cons (l : list PgLogItem) (x : PgLogItem) :
  exists y t, SQL.order_logs (l ++ [x]) = y :: t.
Proof.
  unfold SQL.order_logs. destruct l as [|z l]; cbn [app fold_right];
    apply insert_log_cons.
Qed.

(** X15.  A well-typed action without ids is logged by the relational
    backend as one new row: type, reason and user of the action, no ids, and
    the clock of the store as creation time (the action's own time is not
    used); the blocklist table is untouched.  From then on [GetLogs] with a
    limit other than 0 never succeeds. *)
Theorem Pg_AddLog_without_ids
        (C : Collab) (db : SQL.DB) (act : Action) (limit : Z) :
  SQL.fault db = None ->
  bad_typ (Typ act) = false ->
  Ids act = [] ->
  limit <> 0 ->
  exists db' : SQL.DB,
    PgBlocklist.AddLog C db act = (db', Ok tt) /\
    SQL.auditlog db'
    = (SQL.auditlog db ++
        [mkPgLogItem (mkModel (SQL.nextID db) None) (Typ act) EmptyString
                     (aReason act) (aUser act) (SQL.now db)])%list /\
    SQL.blocklist db' = SQL.blocklist db /\
    is_ok (PgBlocklist.GetLogs C db' limit) = false.
Proof.
  intros Hf Hty Hids Hlim.
  eexists. split.
  { unfold PgBlocklist.AddLog. rewrite Hty, Hids. cbn.
    unfold SQL.CreateLog, SQL.guard. rewrite Hf. reflexivity. }
  split; [reflexivity|]. split; [reflexivity|].
  unfold PgBlocklist.GetLogs, SQL.FindLogs, SQL.guard.
  cbn [SQL.fault SQL.auditlog]. rewrite ?Hf. cbn [bind].
  rewrite filter_app. cbn [filter lModel SQL.live DeletedAt].
  destruct (order_logs_app_cons
              (filter (fun r => SQL.live (lModel r)) (SQL.auditlog db))
              (mkPgLogItem (mkModel (SQL.nextID db) None) (Typ act)
                           EmptyString (aReason act) (aUser act) (SQL.now db)))
    as (y & t & ->).
  destruct (Z.ltb_spec limit 0) as [Hneg|Hpos].
  - apply fill_acts_cons_not_ok.
  - destruct (Z.to_nat limit) eqn:E; [lia|]. cbn [firstn].
    apply fill_acts_cons_not_ok.
Qed.

Lemma Pg_AddLog_without_ids_witness :
  exists db' : SQL.DB,
    PgBlocklist.AddLog Ref.collab SQL.empty act_no_ids = (db', Ok tt) /\
    SQL.auditlog db'
    = [mkPgLogItem (mkModel 1 None) "block" EmptyString "DMCA"
                   "alice@example.com" zeroTime] /\
    SQL.blocklist db' = [] /\
    is_ok (PgBlocklist.GetLogs Ref.collab db' 10) = false.
Proof.
  apply (@Pg_AddLog_without_ids Ref.collab SQL.empty act_no_ids 10);
    [reflexivity | reflexivity | reflexivity | lia].
Defined.

(** X17.  [Purge] of the relational backend deletes the payload under the
    key of the CID as given: on a working store it succeeds and the key is
    then absent, a store without the payload is left as it was, and for a
    CID that is not of version 0 it is the [Purge] of the key-value
    backend. *)
Theorem Pg_Purge_deletes_the_payload
        (C : Collab) (d : KV.Store) (id : Cid) :
  KV.fault d = None ->
  (exists d' : KV.Store,
      PgBlocklist.Purge C d id = (d', Ok tt) /\
      KV.Has d' (CidToDsKey C id) = Ok false) /\
  (KV.Has d (CidToDsKey C id) = Ok false ->
   PgBlocklist.Purge C d id = (d, Ok tt)) /\
  (Version id <> 0 ->
   PgBlocklist.Purge C d id = DatastoreBlocklist.Purge C d id).
Proof.
  intro Hf. destruct d as [l f]. cbn in Hf. subst f.
  unfold PgBlocklist.Purge, DatastoreBlocklist.Purge,
    DatastoreBlocklist.cidToKey, KV.Delete, KV.Has, KV.guard.
  cbn [KV.fault KV.entries].
  split; [|split].
  - eexists. split; [reflexivity|]. cbn. now rewrite KV_lookup_remove.
  - destruct (KV.lookup (CidToDsKey C id) l) eqn:E; [discriminate|].
    intros _. now rewrite (KV_remove_absent _ _ E).
  - intro Hv. apply Z.eqb_neq in Hv. now rewrite Hv.
Qed.

Lemma Pg_Purge_deletes_the_payload_witness :
  (exists d' : KV.Store,
      PgBlocklist.Purge Ref.collab payload_store cidB = (d', Ok tt) /\
      KV.Has d' "/1:112:58" = Ok false) /\
  PgBlocklist.Purge Ref.collab KV.empty cidB = (KV.empty, Ok tt) /\
  PgBlocklist.Purge Ref.collab payload_store cidB
    = DatastoreBlocklist.Purge Ref.collab payload_store cidB.
Proof.
  destruct (@Pg_Purge_deletes_the_payload Ref.collab payload_store cidB
              eq_refl) as (H1 & _ & H3).
  destruct (@Pg_Purge_deletes_the_payload Ref.collab KV.empty cidB eq_refl)
    as (_ & H2 & _).
  split; [exact H1|]. split; [apply H2; reflexivity|].
  apply H3. discriminate.
Defined.
